(** * Electronic lock: control logic of the Arduino sketches

    Shallow embedding of two sketches of the repository:

    - [RfidLock]: "Arduino Solenoid Lock Control with RFID - Improved
      Version" (RFID reader, serial commands, manual button with
      debounce, session mode, sleep mode);
    - [LockV1]: [lock_v1.ino] (serial commands, unlock timer, manual
      button, no guards on the current lock state).

    The globals of a sketch become the fields of a [State] record that
    every function takes and returns.  The output latch of a pin is a
    field too ([digitalRead] of an output pin reads the latch back).
    [millis()] reads the field [clock]; [delay(ms)] advances it, and the
    caller advances it between two calls.  [unsigned long] is 32 bits
    wide on the AVR: every subtraction of time stamps wraps modulo 2^32.
    What a function does to the outside world (pin writes, delays,
    serial output, processor sleep) is appended to the field [trace],
    so that a pulse on a pin stays observable after the pin is back at
    its old level. *)

From Stdlib Require Import ZArith List String Ascii Bool Lia.
Import ListNotations.
Open Scope string_scope.
Open Scope list_scope.
Open Scope Z_scope.

(** ** Arduino primitives shared by the sketches *)

Module Arduino.

Inductive Level : Type := LOW | HIGH.

Definition level_eqb (a b : Level) : bool :=
  match a, b with
  | LOW, LOW | HIGH, HIGH => true
  | _, _ => false
  end.

(** [unsigned long] arithmetic of the AVR tool chain. *)
Definition ULONG_RANGE : Z := 2 ^ 32.
Definition wrap32 (z : Z) : Z := z mod ULONG_RANGE.
Definition usub (a b : Z) : Z := wrap32 (a - b).
Definition uadd (a b : Z) : Z := wrap32 (a + b).

(** The value [millis()] returns at real time [t] (milliseconds since
    power-on): the counter rolls over after 2^32 ms. *)
Definition millis_at (t : Z) : Z := wrap32 t.

(** The card record of the MFRC522 library: [byte size; byte
    uidByte[10]; byte sak]. *)
Record Uid : Type := mkUid { size : Z; uidByte : list Z; sak : Z }.

(** Effects on the outside world. *)
Inductive Event : Type :=
| DigitalWrite (pin : Z) (v : Level)
| Delay (ms : Z)
| SerialPrint (s : string)
| SerialPrintln (s : string)
| SerialPrintNum (n : Z)
| SerialPrintlnChar (c : ascii)
| WdtReset
| CpuSleep
| RfidLog (uid : Uid)
| RfidHalt.

Definition event_eqb_write (pin : Z) (v : Level) (e : Event) : bool :=
  match e with
  | DigitalWrite p l => (p =? pin) && level_eqb l v
  | _ => false
  end.

Definition is_sleep (e : Event) : bool :=
  match e with CpuSleep => true | _ => false end.

(** [for (int i = 0; i < n; i++) body] on a state. *)
Fixpoint repeat_body {St : Type} (n : nat) (body : St -> St) (st : St) : St :=
  match n with
  | O => st
  | S n' => repeat_body n' body (body st)
  end.

End Arduino.

Import Arduino.

(** ** The RFID sketch *)

Module RfidLock.

Definition DEBUG : bool := true.

Definition SOLENOID_PIN : Z := 2.
Definition MANUAL_UNLOCK_BTN : Z := 4.
Definition LED_GREEN_PIN : Z := 5.
Definition LED_RED_PIN : Z := 6.

Definition authorizedUIDs : list (list Z) :=
  [ [0xB3; 0x4A; 0x9E; 0x29];
    [0x12; 0x34; 0x56; 0x78] ].
Definition NUM_AUTHORIZED_CARDS : nat := List.length authorizedUIDs.

Definition UNLOCK_TIME : Z := 10000.
Definition SESSION_DURATION : Z := 7200000.
Definition SLEEP_AFTER_TIME : Z := 60000.
Definition DEBOUNCE_DELAY : Z := 50.

Record State : Type := mkState {
  solenoid : Level;            (* output latch of SOLENOID_PIN *)
  ledGreen : Level;            (* output latch of LED_GREEN_PIN *)
  ledRed : Level;              (* output latch of LED_RED_PIN *)
  unlockStartTime : Z;
  sessionStartTime : Z;
  lastActivityTime : Z;
  lastDebounceTime : Z;
  unlockTimerActive : bool;
  sessionModeActive : bool;
  unlockedByAuth : bool;
  manualUnlocked : bool;
  sleepEnabled : bool;
  lastButtonState : Level;
  buttonState : Level;
  clock : Z;                   (* what millis() returns now *)
  trace : list Event           (* effects so far, oldest first *)
}.

(** Assignments to the globals. *)

Definition set_solenoid (v : Level) (st : State) : State :=
  let '(mkState _ x_ledGreen x_ledRed x_unlockStartTime x_sessionStartTime
         x_lastActivityTime x_lastDebounceTime x_unlockTimerActive
         x_sessionModeActive x_unlockedByAuth x_manualUnlocked
         x_sleepEnabled x_lastButtonState x_buttonState x_clock
         x_trace) := st in
  mkState v x_ledGreen x_ledRed x_unlockStartTime x_sessionStartTime
    x_lastActivityTime x_lastDebounceTime x_unlockTimerActive
    x_sessionModeActive x_unlockedByAuth x_manualUnlocked x_sleepEnabled
    x_lastButtonState x_buttonState x_clock x_trace.

Definition set_ledGreen (v : Level) (st : State) : State :=
  let '(mkState x_solenoid _ x_ledRed x_unlockStartTime x_sessionStartTime
         x_lastActivityTime x_lastDebounceTime x_unlockTimerActive
         x_sessionModeActive x_unlockedByAuth x_manualUnlocked
         x_sleepEnabled x_lastButtonState x_buttonState x_clock
         x_trace) := st in
  mkState x_solenoid v x_ledRed x_unlockStartTime x_sessionStartTime
    x_lastActivityTime x_lastDebounceTime x_unlockTimerActive
    x_sessionModeActive x_unlockedByAuth x_manualUnlocked x_sleepEnabled
    x_lastButtonState x_buttonState x_clock x_trace.

Definition set_ledRed (v : Level) (st : State) : State :=
  let '(mkState x_solenoid x_ledGreen _ x_unlockStartTime x_sessionStartTime
         x_lastActivityTime x_lastDebounceTime x_unlockTimerActive
         x_sessionModeActive x_unlockedByAuth x_manualUnlocked
         x_sleepEnabled x_lastButtonState x_buttonState x_clock
         x_trace) := st in
  mkState x_solenoid x_ledGreen v x_unlockStartTime x_sessionStartTime
    x_lastActivityTime x_lastDebounceTime x_unlockTimerActive
    x_sessionModeActive x_unlockedByAuth x_manualUnlocked x_sleepEnabled
    x_lastButtonState x_buttonState x_clock x_trace.

Definition set_unlockStartTime (v : Z) (st : State) : State :=
  let '(mkState x_solenoid x_ledGreen x_ledRed _ x_sessionStartTime
         x_lastActivityTime x_lastDebounceTime x_unlockTimerActive
         x_sessionModeActive x_unlockedByAuth x_manualUnlocked
         x_sleepEnabled x_lastButtonState x_buttonState x_clock
         x_trace) := st in
  mkState x_solenoid x_ledGreen x_ledRed v x_sessionStartTime
    x_lastActivityTime x_lastDebounceTime x_unlockTimerActive
    x_sessionModeActive x_unlockedByAuth x_manualUnlocked x_sleepEnabled
    x_lastButtonState x_buttonState x_clock x_trace.

Definition set_sessionStartTime (v : Z) (st : State) : State :=
  let '(mkState x_solenoid x_ledGreen x_ledRed x_unlockStartTime _
         x_lastActivityTime x_lastDebounceTime x_unlockTimerActive
         x_sessionModeActive x_unlockedByAuth x_manualUnlocked
         x_sleepEnabled x_lastButtonState x_buttonState x_clock
         x_trace) := st in
  mkState x_solenoid x_ledGreen x_ledRed x_unlockStartTime v
    x_lastActivityTime x_lastDebounceTime x_unlockTimerActive
    x_sessionModeActive x_unlockedByAuth x_manualUnlocked x_sleepEnabled
    x_lastButtonState x_buttonState x_clock x_trace.

Definition set_lastActivityTime (v : Z) (st : State) : State :=
  let '(mkState x_solenoid x_ledGreen x_ledRed x_unlockStartTime
         x_sessionStartTime _ x_lastDebounceTime x_unlockTimerActive
         x_sessionModeActive x_unlockedByAuth x_manualUnlocked
         x_sleepEnabled x_lastButtonState x_buttonState x_clock
         x_trace) := st in
  mkState x_solenoid x_ledGreen x_ledRed x_unlockStartTime
    x_sessionStartTime v x_lastDebounceTime x_unlockTimerActive
    x_sessionModeActive x_unlockedByAuth x_manualUnlocked x_sleepEnabled
    x_lastButtonState x_buttonState x_clock x_trace.

Definition set_lastDebounceTime (v : Z) (st : State) : State :=
  let '(mkState x_solenoid x_ledGreen x_ledRed x_unlockStartTime
         x_sessionStartTime x_lastActivityTime _ x_unlockTimerActive
         x_sessionModeActive x_unlockedByAuth x_manualUnlocked
         x_sleepEnabled x_lastButtonState x_buttonState x_clock
         x_trace) := st in
  mkState x_solenoid x_ledGreen x_ledRed x_unlockStartTime
    x_sessionStartTime x_lastActivityTime v x_unlockTimerActive
    x_sessionModeActive x_unlockedByAuth x_manualUnlocked x_sleepEnabled
    x_lastButtonState x_buttonState x_clock x_trace.

Definition set_unlockTimerActive (v : bool) (st : State) : State :=
  let '(mkState x_solenoid x_ledGreen x_ledRed x_unlockStartTime
         x_sessionStartTime x_lastActivityTime x_lastDebounceTime _
         x_sessionModeActive x_unlockedByAuth x_manualUnlocked
         x_sleepEnabled x_lastButtonState x_buttonState x_clock
         x_trace) := st in
  mkState x_solenoid x_ledGreen x_ledRed x_unlockStartTime
    x_sessionStartTime x_lastActivityTime x_lastDebounceTime v
    x_sessionModeActive x_unlockedByAuth x_manualUnlocked x_sleepEnabled
    x_lastButtonState x_buttonState x_clock x_trace.

Definition set_sessionModeActive (v : bool) (st : State) : State :=
  let '(mkState x_solenoid x_ledGreen x_ledRed x_unlockStartTime
         x_sessionStartTime x_lastActivityTime x_lastDebounceTime
         x_unlockTimerActive _ x_unlockedByAuth x_manualUnlocked
         x_sleepEnabled x_lastButtonState x_buttonState x_clock
         x_trace) := st in
  mkState x_solenoid x_ledGreen x_ledRed x_unlockStartTime
    x_sessionStartTime x_lastActivityTime x_lastDebounceTime
    x_unlockTimerActive v x_unlockedByAuth x_manualUnlocked x_sleepEnabled
    x_lastButtonState x_buttonState x_clock x_trace.

Definition set_unlockedByAuth (v : bool) (st : State) : State :=
  let '(mkState x_solenoid x_ledGreen x_ledRed x_unlockStartTime
         x_sessionStartTime x_lastActivityTime x_lastDebounceTime
         x_unlockTimerActive x_sessionModeActive _ x_manualUnlocked
         x_sleepEnabled x_lastButtonState x_buttonState x_clock
         x_trace) := st in
  mkState x_solenoid x_ledGreen x_ledRed x_unlockStartTime
    x_sessionStartTime x_lastActivityTime x_lastDebounceTime
    x_unlockTimerActive x_sessionModeActive v x_manualUnlocked
    x_sleepEnabled x_lastButtonState x_buttonState x_clock x_trace.

Definition set_manualUnlocked (v : bool) (st : State) : State :=
  let '(mkState x_solenoid x_ledGreen x_ledRed x_unlockStartTime
         x_sessionStartTime x_lastActivityTime x_lastDebounceTime
         x_unlockTimerActive x_sessionModeActive x_unlockedByAuth _
         x_sleepEnabled x_lastButtonState x_buttonState x_clock
         x_trace) := st in
  mkState x_solenoid x_ledGreen x_ledRed x_unlockStartTime
    x_sessionStartTime x_lastActivityTime x_lastDebounceTime
    x_unlockTimerActive x_sessionModeActive x_unlockedByAuth v
    x_sleepEnabled x_lastButtonState x_buttonState x_clock x_trace.

Definition set_sleepEnabled (v : bool) (st : State) : State :=
  let '(mkState x_solenoid x_ledGreen x_ledRed x_unlockStartTime
         x_sessionStartTime x_lastActivityTime x_lastDebounceTime
         x_unlockTimerActive x_sessionModeActive x_unlockedByAuth
         x_manualUnlocked _ x_lastButtonState x_buttonState x_clock
         x_trace) := st in
  mkState x_solenoid x_ledGreen x_ledRed x_unlockStartTime
    x_sessionStartTime x_lastActivityTime x_lastDebounceTime
    x_unlockTimerActive x_sessionModeActive x_unlockedByAuth
    x_manualUnlocked v x_lastButtonState x_buttonState x_clock x_trace.

Definition set_lastButtonState (v : Level) (st : State) : State :=
  let '(mkState x_solenoid x_ledGreen x_ledRed x_unlockStartTime
         x_sessionStartTime x_lastActivityTime x_lastDebounceTime
         x_unlockTimerActive x_sessionModeActive x_unlockedByAuth
         x_manualUnlocked x_sleepEnabled _ x_buttonState x_clock
         x_trace) := st in
  mkState x_solenoid x_ledGreen x_ledRed x_unlockStartTime
    x_sessionStartTime x_lastActivityTime x_lastDebounceTime
    x_unlockTimerActive x_sessionModeActive x_unlockedByAuth
    x_manualUnlocked x_sleepEnabled v x_buttonState x_clock x_trace.

Definition set_buttonState (v : Level) (st : State) : State :=
  let '(mkState x_solenoid x_ledGreen x_ledRed x_unlockStartTime
         x_sessionStartTime x_lastActivityTime x_lastDebounceTime
         x_unlockTimerActive x_sessionModeActive x_unlockedByAuth
         x_manualUnlocked x_sleepEnabled x_lastButtonState _ x_clock
         x_trace) := st in
  mkState x_solenoid x_ledGreen x_ledRed x_unlockStartTime
    x_sessionStartTime x_lastActivityTime x_lastDebounceTime
    x_unlockTimerActive x_sessionModeActive x_unlockedByAuth
    x_manualUnlocked x_sleepEnabled x_lastButtonState v x_clock x_trace.

Definition set_clock (v : Z) (st : State) : State :=
  let '(mkState x_solenoid x_ledGreen x_ledRed x_unlockStartTime
         x_sessionStartTime x_lastActivityTime x_lastDebounceTime
         x_unlockTimerActive x_sessionModeActive x_unlockedByAuth
         x_manualUnlocked x_sleepEnabled x_lastButtonState x_buttonState _
         x_trace) := st in
  mkState x_solenoid x_ledGreen x_ledRed x_unlockStartTime
    x_sessionStartTime x_lastActivityTime x_lastDebounceTime
    x_unlockTimerActive x_sessionModeActive x_unlockedByAuth
    x_manualUnlocked x_sleepEnabled x_lastButtonState x_buttonState v
    x_trace.

Definition set_trace (v : list Event) (st : State) : State :=
  let '(mkState x_solenoid x_ledGreen x_ledRed x_unlockStartTime
         x_sessionStartTime x_lastActivityTime x_lastDebounceTime
         x_unlockTimerActive x_sessionModeActive x_unlockedByAuth
         x_manualUnlocked x_sleepEnabled x_lastButtonState x_buttonState
         x_clock _) := st in
  mkState x_solenoid x_ledGreen x_ledRed x_unlockStartTime
    x_sessionStartTime x_lastActivityTime x_lastDebounceTime
    x_unlockTimerActive x_sessionModeActive x_unlockedByAuth
    x_manualUnlocked x_sleepEnabled x_lastButtonState x_buttonState x_clock
    v.

(** The globals as their initialisers leave them, before [setup]. *)
Definition power_on : State :=
  mkState LOW LOW LOW 0 0 0 0 false false false false true HIGH HIGH 0 [].

Definition emit (e : Event) (st : State) : State :=
  set_trace (trace st ++ [e]) st.

Definition millis (st : State) : Z := clock st.

Definition delay (ms : Z) (st : State) : State :=
  emit (Delay ms) (set_clock (uadd (clock st) ms) st).

Definition println (s : string) (st : State) : State :=
  emit (SerialPrintln s) st.

Definition print (s : string) (st : State) : State :=
  emit (SerialPrint s) st.

Definition digitalWrite (pin : Z) (v : Level) (st : State) : State :=
  let st := emit (DigitalWrite pin v) st in
  if pin =? SOLENOID_PIN then set_solenoid v st
  else if pin =? LED_GREEN_PIN then set_ledGreen v st
  else if pin =? LED_RED_PIN then set_ledRed v st
  else st.

(** [digitalRead] of the three output pins; the button pin is an input
    and its level is passed to [checkManualUnlock] by the caller. *)
Definition digitalRead (pin : Z) (st : State) : Level :=
  if pin =? SOLENOID_PIN then solenoid st
  else if pin =? LED_GREEN_PIN then ledGreen st
  else if pin =? LED_RED_PIN then ledRed st
  else LOW.

Definition isDoorUnlocked (st : State) : bool :=
  level_eqb (digitalRead SOLENOID_PIN st) HIGH.

Definition updateLEDs (unlocked : bool) (st : State) : State :=
  if unlocked then
    digitalWrite LED_RED_PIN LOW (digitalWrite LED_GREEN_PIN HIGH st)
  else
    digitalWrite LED_RED_PIN HIGH (digitalWrite LED_GREEN_PIN LOW st).

(** Body of the loops that flash the red LED. *)
Definition flashRed (st : State) : State :=
  let st := digitalWrite LED_RED_PIN HIGH st in
  let st := delay 100 st in
  let st := digitalWrite LED_RED_PIN LOW st in
  delay 100 st.

(** Body of the start-up flash in [setup]. *)
Definition flashBoth (st : State) : State :=
  let st := digitalWrite LED_GREEN_PIN HIGH st in
  let st := digitalWrite LED_RED_PIN HIGH st in
  let st := delay 200 st in
  let st := digitalWrite LED_GREEN_PIN LOW st in
  let st := digitalWrite LED_RED_PIN LOW st in
  delay 200 st.

Definition setup (st : State) : State :=
  let st := digitalWrite SOLENOID_PIN LOW st in
  let st := updateLEDs false st in
  let st := set_lastActivityTime (millis st) st in
  let st := repeat_body 2 flashBoth st in
  let st := updateLEDs false st in
  let st := println "Solenoid Lock Control System with RFID" st in
  let st :=
    if DEBUG then
      println "Commands: U=Unlock, L=Lock, S=Status, M=Toggle Session Mode, Z=Toggle Sleep Mode"
        (println "DEBUG mode is ON - Serial commands are enabled" st)
    else println "DEBUG mode is OFF - Serial commands are disabled" st in
  println "Place your RFID card near the reader to unlock..." st.

Definition toggleSessionMode (st : State) : State :=
  let st := set_sessionModeActive (negb (sessionModeActive st)) st in
  if sessionModeActive st then
    println "Session mode activated for 2 hours"
      (set_sessionStartTime (millis st) st)
  else println "Session mode deactivated" st.

Definition unlockDoor (st : State) : State :=
  let st := println "Unlocking door..." st in
  let st := digitalWrite SOLENOID_PIN HIGH st in
  let st := updateLEDs true st in
  let st := set_unlockStartTime (millis st) st in
  let st := set_unlockTimerActive true st in
  let st := set_lastActivityTime (millis st) st in
  let st := set_unlockedByAuth true st in
  let st := set_manualUnlocked false st in
  let st := println "Door unlocked - will auto-lock after timeout" st in
  if negb (sessionModeActive st) then toggleSessionMode st else st.

Definition lockDoor (st : State) : State :=
  let st := println "Locking door..." st in
  let st := digitalWrite SOLENOID_PIN LOW st in
  let st := updateLEDs false st in
  let st := set_unlockTimerActive false st in
  let st := set_lastActivityTime (millis st) st in
  println "Door locked" st.

(** The inner loop of [checkRFID]: bytes [i], [i+1], ... of the card
    against the same bytes of one entry, [n] iterations left; a
    differing byte clears [match] and breaks. *)
Fixpoint uidMatch (uid entry : list Z) (i n : nat) : bool :=
  match n with
  | O => true
  | S n' =>
      if negb (nth i uid 0 =? nth i entry 0) then false
      else uidMatch uid entry (S i) n'
  end.

(** The outer loop of [checkRFID] over the entries of the table, in
    order; the first match sets [authorized] and breaks. *)
Fixpoint authorizedAmong (uid : list Z) (cards : list (list Z)) : bool :=
  match cards with
  | [] => false
  | entry :: rest =>
      if uidMatch uid entry 0 4 then true else authorizedAmong uid rest
  end.

(** [logRFIDDetails] only writes to the serial port; the dump of the
    card is kept as one event. *)
Definition logRFIDDetails (u : Uid) (st : State) : State :=
  emit (RfidLog u) st.

(** [card] is [Some u] when [PICC_IsNewCardPresent] and
    [PICC_ReadCardSerial] both succeed and leave [u] in [rfid.uid]. *)
Definition checkRFID (card : option Uid) (st : State) : State :=
  if isDoorUnlocked st then st
  else
    match card with
    | None => st
    | Some u =>
        let st := logRFIDDetails u st in
        let authorized := authorizedAmong (uidByte u) authorizedUIDs in
        let st :=
          if authorized then
            unlockDoor (println "Authorized card detected" st)
          else
            let st := println "Unauthorized card - access denied" st in
            let st := repeat_body 3 flashRed st in
            updateLEDs false st in
        let st := emit RfidHalt st in
        set_lastActivityTime (millis st) st
    end.

Definition printStatus (st : State) : State :=
  let st := println "----------------------------------------" st in
  let st := println "System Status:" st in
  let st :=
    println (String.append "Door is: "
               (if level_eqb (digitalRead SOLENOID_PIN st) HIGH
                then "UNLOCKED" else "LOCKED")) st in
  let st :=
    println (String.append "Session mode: "
               (if sessionModeActive st then "ACTIVE" else "INACTIVE")) st in
  let st :=
    if sessionModeActive st then
      let sessionTimeLeft :=
        usub SESSION_DURATION (usub (millis st) (sessionStartTime st)) in
      let st := print "Session time remaining: " st in
      let st := emit (SerialPrintNum (sessionTimeLeft / 60000)) st in
      println " minutes" st
    else st in
  let st :=
    println (String.append "Sleep mode: "
               (if sleepEnabled st then "ENABLED" else "DISABLED")) st in
  println "----------------------------------------" st.

Definition is_whitespace (c : ascii) : bool :=
  ((c =? "010") || (c =? "013") || (c =? " ") || (c =? "009"))%char.

(** One iteration of the [while (Serial.available() > 0)] loop of
    [checkSerial], for the character [command] just read. *)
Definition serialCommand (command : ascii) (st : State) : State :=
  let st := set_lastActivityTime (millis st) st in
  if is_whitespace command then st
  else if isDoorUnlocked st then
    if ((command =? "l") || (command =? "L"))%char then lockDoor st
    else if ((command =? "s") || (command =? "S"))%char then printStatus st
    else st
  else
    let st :=
      if ((command =? "u") || (command =? "U"))%char then unlockDoor st
      else if ((command =? "l") || (command =? "L"))%char then lockDoor st
      else if ((command =? "s") || (command =? "S"))%char then printStatus st
      else if ((command =? "m") || (command =? "M"))%char then toggleSessionMode st
      else if ((command =? "z") || (command =? "Z"))%char then
        let st := set_sleepEnabled (negb (sleepEnabled st)) st in
        println (if sleepEnabled st then "Sleep mode enabled"
                 else "Sleep mode disabled") st
      else
        emit (SerialPrintlnChar command) (print "Unknown command: " st) in
    delay 10 st.

(** [checkSerial] on the characters waiting in the receive buffer. *)
Fixpoint checkSerial (buffer : list ascii) (st : State) : State :=
  match buffer with
  | [] => st
  | command :: rest => checkSerial rest (serialCommand command st)
  end.

(** The blocking hold of the manual override: energise, wait, release. *)
Definition manualUnlockHold (st : State) : State :=
  let st := println "Manual unlock triggered" st in
  let st := digitalWrite SOLENOID_PIN HIGH st in
  let st := updateLEDs true st in
  let st := delay UNLOCK_TIME st in
  let st := digitalWrite SOLENOID_PIN LOW st in
  let st := updateLEDs false st in
  let st := println "Door re-locked after manual unlock" st in
  set_manualUnlocked true st.

(** The rejection of a button press: message and red flashes. *)
Definition manualUnlockReject (st : State) : State :=
  let st := println "Button press ignored - authentication required" st in
  let st := repeat_body 3 flashRed st in
  updateLEDs false st.

(** [reading] is what [digitalRead(MANUAL_UNLOCK_BTN)] returns. *)
Definition checkManualUnlock (reading : Level) (st : State) : State :=
  if isDoorUnlocked st then st
  else
    let st :=
      if negb (level_eqb reading (lastButtonState st))
      then set_lastDebounceTime (millis st) st else st in
    let st :=
      if usub (millis st) (lastDebounceTime st) >? DEBOUNCE_DELAY then
        if negb (level_eqb reading (buttonState st)) then
          let st := set_buttonState reading st in
          if level_eqb (buttonState st) LOW then
            let st := println "Button pressed" st in
            let st := set_lastActivityTime (millis st) st in
            if (unlockedByAuth st && negb (manualUnlocked st))
               || sessionModeActive st
            then manualUnlockHold st
            else manualUnlockReject st
          else st
        else st
      else st in
    set_lastButtonState reading st.

Definition handleUnlockTimer (st : State) : State :=
  if unlockTimerActive st then
    if usub (millis st) (unlockStartTime st) >=? UNLOCK_TIME then
      set_unlockTimerActive false (lockDoor st)
    else st
  else st.

Definition handleSessionTimer (st : State) : State :=
  if sessionModeActive st then
    if usub (millis st) (sessionStartTime st) >=? SESSION_DURATION then
      println "Session mode expired" (set_sessionModeActive false st)
    else st
  else st.

(** [asleep] is the time the processor stays in [sleep_mode()] until the
    button interrupt wakes it. *)
Definition enterSleepMode (asleep : Z) (st : State) : State :=
  let st := println "Entering sleep mode to save power..." st in
  let st := delay 100 st in
  let st := digitalWrite LED_GREEN_PIN LOW st in
  let st := digitalWrite LED_RED_PIN LOW st in
  let st := emit CpuSleep st in
  let st := set_clock (uadd (clock st) asleep) st in
  let st := set_lastActivityTime (millis st) st in
  let st := updateLEDs (level_eqb (digitalRead SOLENOID_PIN st) HIGH) st in
  println "Waking up from sleep mode" st.

Definition checkSleep (asleep : Z) (st : State) : State :=
  if sleepEnabled st
     && (usub (millis st) (lastActivityTime st) >? SLEEP_AFTER_TIME)
  then
    if level_eqb (digitalRead SOLENOID_PIN st) HIGH then st
    else enterSleepMode asleep st
  else st.

(** What the outside world offers during one pass of [loop]. *)
Record Inputs : Type := mkInputs {
  card : option Uid;
  serial : list ascii;
  button : Level;
  asleep : Z
}.

(** The statements of [loop] that come before [checkSleep]. *)
Definition loopBeforeSleep (inp : Inputs) (st : State) : State :=
  let st := emit WdtReset st in
  let st := checkRFID (card inp) st in
  let st := if DEBUG then checkSerial (serial inp) st else st in
  let st := checkManualUnlock (button inp) st in
  let st := handleUnlockTimer st in
  handleSessionTimer st.

Definition loop (inp : Inputs) (st : State) : State :=
  checkSleep (asleep inp) (loopBeforeSleep inp st).

(** The events a call has added to the trace of [before]. *)
Definition added (before after : State) : list Event :=
  skipn (List.length (trace before)) (trace after).

(** The solenoid was energised during the call. *)
Definition energised (before after : State) : bool :=
  existsb (event_eqb_write SOLENOID_PIN HIGH) (added before after).

(** The timer test of [handleUnlockTimer]. *)
Definition unlockTimerExpired (st : State) : bool :=
  unlockTimerActive st
  && (usub (millis st) (unlockStartTime st) >=? UNLOCK_TIME).

(** The conditions of [checkManualUnlock] under which the debounced
    button state becomes LOW: a Button-Pressed event. *)
Definition buttonPressed (reading : Level) (st : State) : bool :=
  negb (isDoorUnlocked st)
  && level_eqb reading (lastButtonState st)
  && (usub (millis st) (lastDebounceTime st) >? DEBOUNCE_DELAY)
  && negb (level_eqb reading (buttonState st))
  && level_eqb reading LOW.

(** The state with the clock at real time [t]. *)
Definition at_time (t : Z) (st : State) : State :=
  set_clock (millis_at t) st.

(** The state without the record of its effects. *)
Definition quiet (st : State) : State := set_trace [] st.

End RfidLock.

(** ** The first sketch, lock_v1.ino *)

Module LockV1.

Definition solenoidPin : Z := 2.
Definition unlockTime : Z := 3000.
Definition manualUnlockButton : Z := 4.

Record State : Type := mkState {
  solenoid : Level;            (* output latch of solenoidPin *)
  unlockStartTime : Z;
  unlockTimerActive : bool;
  unlockedByAuth : bool;
  manualUnlocked : bool;
  clock : Z;                   (* what millis() returns now *)
  trace : list Event           (* effects so far, oldest first *)
}.

(** Assignments to the globals. *)

Definition set_solenoid (v : Level) (st : State) : State :=
  let '(mkState _ x_unlockStartTime x_unlockTimerActive x_unlockedByAuth
         x_manualUnlocked x_clock x_trace) := st in
  mkState v x_unlockStartTime x_unlockTimerActive x_unlockedByAuth
    x_manualUnlocked x_clock x_trace.

Definition set_unlockStartTime (v : Z) (st : State) : State :=
  let '(mkState x_solenoid _ x_unlockTimerActive x_unlockedByAuth
         x_manualUnlocked x_clock x_trace) := st in
  mkState x_solenoid v x_unlockTimerActive x_unlockedByAuth x_manualUnlocked
    x_clock x_trace.

Definition set_unlockTimerActive (v : bool) (st : State) : State :=
  let '(mkState x_solenoid x_unlockStartTime _ x_unlockedByAuth
         x_manualUnlocked x_clock x_trace) := st in
  mkState x_solenoid x_unlockStartTime v x_unlockedByAuth x_manualUnlocked
    x_clock x_trace.

Definition set_unlockedByAuth (v : bool) (st : State) : State :=
  let '(mkState x_solenoid x_unlockStartTime x_unlockTimerActive _
         x_manualUnlocked x_clock x_trace) := st in
  mkState x_solenoid x_unlockStartTime x_unlockTimerActive v
    x_manualUnlocked x_clock x_trace.

Definition set_manualUnlocked (v : bool) (st : State) : State :=
  let '(mkState x_solenoid x_unlockStartTime x_unlockTimerActive
         x_unlockedByAuth _ x_clock x_trace) := st in
  mkState x_solenoid x_unlockStartTime x_unlockTimerActive x_unlockedByAuth
    v x_clock x_trace.

Definition set_clock (v : Z) (st : State) : State :=
  let '(mkState x_solenoid x_unlockStartTime x_unlockTimerActive
         x_unlockedByAuth x_manualUnlocked _ x_trace) := st in
  mkState x_solenoid x_unlockStartTime x_unlockTimerActive x_unlockedByAuth
    x_manualUnlocked v x_trace.

Definition set_trace (v : list Event) (st : State) : State :=
  let '(mkState x_solenoid x_unlockStartTime x_unlockTimerActive
         x_unlockedByAuth x_manualUnlocked x_clock _) := st in
  mkState x_solenoid x_unlockStartTime x_unlockTimerActive x_unlockedByAuth
    x_manualUnlocked x_clock v.

Definition power_on : State := mkState LOW 0 false false false 0 [].

Definition emit (e : Event) (st : State) : State :=
  set_trace (trace st ++ [e]) st.

Definition millis (st : State) : Z := clock st.

Definition delay (ms : Z) (st : State) : State :=
  emit (Delay ms) (set_clock (uadd (clock st) ms) st).

Definition println (s : string) (st : State) : State :=
  emit (SerialPrintln s) st.

Definition digitalWrite (pin : Z) (v : Level) (st : State) : State :=
  let st := emit (DigitalWrite pin v) st in
  if pin =? solenoidPin then set_solenoid v st else st.

Definition setup (st : State) : State :=
  let st := println "Solenoid Lock Control System with Watchdog" st in
  digitalWrite solenoidPin LOW st.

Definition unlockDoor (st : State) : State :=
  let st := println "Unlocking door..." st in
  let st := digitalWrite solenoidPin HIGH st in
  let st := set_unlockStartTime (millis st) st in
  let st := set_unlockTimerActive true st in
  let st := println "Door unlocked - will auto-lock after timeout" st in
  let st := set_unlockedByAuth true st in
  set_manualUnlocked false st.

Definition lockDoor (st : State) : State :=
  let st := println "Locking door..." st in
  let st := digitalWrite solenoidPin LOW st in
  let st := set_unlockTimerActive false st in
  println "Door locked" st.

(** First statement of [loop]: the button is reported and debounced by
    a delay.  [reading] is [digitalRead(manualUnlockButton)]. *)
Definition reportButton (reading : Level) (st : State) : State :=
  if level_eqb reading LOW then delay 500 (println "Button Pressed" st)
  else st.

(** Second statement of [loop]: the unlock timer. *)
Definition checkUnlockTimer (st : State) : State :=
  if unlockTimerActive st then
    if usub (millis st) (unlockStartTime st) >=? unlockTime then
      set_unlockTimerActive false (lockDoor st)
    else st
  else st.

(** Third statement of [loop], for the character [command] read from
    the serial port. *)
Definition serialCommand (command : ascii) (st : State) : State :=
  if ((command =? "u") || (command =? "U"))%char then unlockDoor st
  else if ((command =? "l") || (command =? "L"))%char then lockDoor st
  else if ((command =? "s") || (command =? "S"))%char then
    println (String.append "Door is currently: "
               (if level_eqb (solenoid st) HIGH
                then "UNLOCKED" else "LOCKED")) st
  else st.

(** Fourth statement of [loop]: the manual override.  [reading] is the
    second [digitalRead(manualUnlockButton)]. *)
Definition manualButton (reading : Level) (st : State) : State :=
  if level_eqb reading LOW then
    if unlockedByAuth st && negb (manualUnlocked st) then
      let st := println "Manual re-unlock triggered." st in
      let st := digitalWrite solenoidPin HIGH st in
      let st := delay unlockTime st in
      let st := digitalWrite solenoidPin LOW st in
      let st := println "Door re-locked after manual unlock." st in
      let st := set_manualUnlocked true st in
      delay 300 st
    else st
  else st.

(** One pass of [loop]; [command] is [Some c] when a character waits in
    the serial buffer. *)
Definition loop (reading1 : Level) (command : option ascii)
    (reading2 : Level) (st : State) : State :=
  let st := reportButton reading1 st in
  let st := checkUnlockTimer st in
  let st :=
    match command with
    | Some c => serialCommand c st
    | None => st
    end in
  manualButton reading2 st.

(** The door is unlocked while the solenoid is energised; the status line
    of [loop] reads the pin in the same way. *)
Definition isDoorUnlocked (st : State) : bool :=
  level_eqb (solenoid st) HIGH.

(** The timer test of [loop]. *)
Definition unlockTimerExpired (st : State) : bool :=
  unlockTimerActive st
  && (usub (millis st) (unlockStartTime st) >=? unlockTime).

(** The state with the clock at real time [t]. *)
Definition at_time (t : Z) (st : State) : State :=
  set_clock (millis_at t) st.

(** The state without the record of its effects. *)
Definition quiet (st : State) : State := set_trace [] st.

End LockV1.

(** ** Runs of the RFID sketch *)

Module Scenario.
Import RfidLock.

(** The bytes of a card that the comparison of [checkRFID] looks at. *)
Definition candidate (u : Uid) : list Z :=
  [nth 0 (uidByte u) 0; nth 1 (uidByte u) 0;
   nth 2 (uidByte u) 0; nth 3 (uidByte u) 0].

Definition card1 : Uid :=
  mkUid 4 [0xB3; 0x4A; 0x9E; 0x29; 0; 0; 0; 0; 0; 0] 8.

Definition stranger : Uid :=
  mkUid 4 [0xDE; 0xAD; 0xBE; 0xEF; 0; 0; 0; 0; 0; 0] 8.

Definition idle (b : Level) : Inputs := mkInputs None [] b 0.
Definition scan (u : Uid) : Inputs := mkInputs (Some u) [] HIGH 0.

(** Passes of [loop], each at its own real time with its own inputs. *)
Fixpoint run (passes : list (Z * Inputs)) (st : State) : State :=
  match passes with
  | [] => st
  | (t, inp) :: rest => run rest (loop inp (at_time t st))
  end.

Definition booted : State := setup power_on.

(** Card 1 is accepted and the unlock timer re-locks the door. *)
Definition accepted_and_relocked : State :=
  run [(1000, scan card1); (11000, idle HIGH)] booted.

(** Then the button is pressed (first manual override) and released. *)
Definition after_first_press : State :=
  run [(12000, idle LOW); (12100, idle LOW);
       (23000, idle HIGH); (23100, idle HIGH);
       (24000, idle LOW)] accepted_and_relocked.

(** The moment of the second press, debounce time elapsed. *)
Definition second_press : State := at_time 24100 after_first_press.

(** Card 1 was accepted at 1000 ms; ten seconds later. *)
Definition timer_due : State :=
  at_time 11000 (run [(1000, scan card1)] booted).

(** Card 1 was accepted at 1000 ms; four seconds later the door is
    still unlocked. *)
Definition still_unlocked : State :=
  at_time 5000 (run [(1000, scan card1)] booted).

(** lock_v1: the serial command [u] arrives at 1000 ms; half a second
    later the door is still unlocked. *)
Definition v1_unlocked : LockV1.State :=
  LockV1.at_time 1500
    (LockV1.loop HIGH (Some "u"%char) HIGH
       (LockV1.at_time 1000 (LockV1.setup LockV1.power_on))).

End Scenario.

(** ** The sketch with the OLED display *)

Module OledLock.

Definition DEBUG : bool := false.

Definition SOLENOID_PIN : Z := 4.
Definition BYPASS_LOCK_BTN : Z := 2.

Definition authorizedUIDs : list (list Z) :=
  [ [0xB3; 0x4A; 0x9E; 0x29];
    [0x12; 0x34; 0x56; 0x78] ].

Definition UNLOCK_TIME : Z := 10000.
Definition SLEEP_AFTER_TIME : Z := 60000.
Definition WATCHDOG_PERIOD : Z := 8000.
Definition TEMP_MESSAGE_DURATION : Z := 3000.
Definition STATUS_DISPLAY_DURATION : Z := 10000.
Definition DISPLAY_UPDATE_RATE : Z := 250.

(** What the sketch sends out: the effects of the other sketches, and
    the three screens it draws. A screen is kept with what its text
    depends on. *)
Inductive Output : Type :=
| Hw (e : Event)
| WdtEnable
| DrawMessage (line1 line2 : string)
| DrawIntro (doorLocked : bool)
| DrawStatus (unlocked : bool).

(** The globals that the sketch writes, and the static
    [lastDisplayUpdate] of [loop]. ([lastIntroScreenTime],
    [lastStatusScreenTime], [lastDebounceTime] and [lastButtonCheck]
    are declared and never used.) *)
Record State : Type := mkState {
  solenoid : Level;            (* output latch of SOLENOID_PIN *)
  unlockStartTime : Z;
  lastActivityTime : Z;
  lastWatchdogReset : Z;
  lastDisplayUpdate : Z;
  messageStartTime : Z;
  tempMessageStartTime : Z;
  statusScreenStartTime : Z;
  unlockTimerActive : bool;
  unlockedByAuth : bool;
  manualUnlocked : bool;
  sleepEnabled : bool;
  temporaryMessageActive : bool;
  statusScreenActive : bool;
  clock : Z;                   (* what millis() returns now *)
  trace : list Output          (* effects so far, oldest first *)
}.

(** Assignments to the globals. *)

Definition set_solenoid (v : Level) (st : State) : State :=
  let '(mkState _ x_unlockStartTime x_lastActivityTime x_lastWatchdogReset
         x_lastDisplayUpdate x_messageStartTime x_tempMessageStartTime
         x_statusScreenStartTime x_unlockTimerActive x_unlockedByAuth
         x_manualUnlocked x_sleepEnabled x_temporaryMessageActive
         x_statusScreenActive x_clock x_trace) := st in
  mkState v x_unlockStartTime x_lastActivityTime x_lastWatchdogReset
    x_lastDisplayUpdate x_messageStartTime x_tempMessageStartTime
    x_statusScreenStartTime x_unlockTimerActive x_unlockedByAuth
    x_manualUnlocked x_sleepEnabled x_temporaryMessageActive
    x_statusScreenActive x_clock x_trace.

Definition set_unlockStartTime (v : Z) (st : State) : State :=
  let '(mkState x_solenoid _ x_lastActivityTime x_lastWatchdogReset
         x_lastDisplayUpdate x_messageStartTime x_tempMessageStartTime
         x_statusScreenStartTime x_unlockTimerActive x_unlockedByAuth
         x_manualUnlocked x_sleepEnabled x_temporaryMessageActive
         x_statusScreenActive x_clock x_trace) := st in
  mkState x_solenoid v x_lastActivityTime x_lastWatchdogReset
    x_lastDisplayUpdate x_messageStartTime x_tempMessageStartTime
    x_statusScreenStartTime x_unlockTimerActive x_unlockedByAuth
    x_manualUnlocked x_sleepEnabled x_temporaryMessageActive
    x_statusScreenActive x_clock x_trace.

Definition set_lastActivityTime (v : Z) (st : State) : State :=
  let '(mkState x_solenoid x_unlockStartTime _ x_lastWatchdogReset
         x_lastDisplayUpdate x_messageStartTime x_tempMessageStartTime
         x_statusScreenStartTime x_unlockTimerActive x_unlockedByAuth
         x_manualUnlocked x_sleepEnabled x_temporaryMessageActive
         x_statusScreenActive x_clock x_trace) := st in
  mkState x_solenoid x_unlockStartTime v x_lastWatchdogReset
    x_lastDisplayUpdate x_messageStartTime x_tempMessageStartTime
    x_statusScreenStartTime x_unlockTimerActive x_unlockedByAuth
    x_manualUnlocked x_sleepEnabled x_temporaryMessageActive
    x_statusScreenActive x_clock x_trace.

Definition set_lastWatchdogReset (v : Z) (st : State) : State :=
  let '(mkState x_solenoid x_unlockStartTime x_lastActivityTime _
         x_lastDisplayUpdate x_messageStartTime x_tempMessageStartTime
         x_statusScreenStartTime x_unlockTimerActive x_unlockedByAuth
         x_manualUnlocked x_sleepEnabled x_temporaryMessageActive
         x_statusScreenActive x_clock x_trace) := st in
  mkState x_solenoid x_unlockStartTime x_lastActivityTime v
    x_lastDisplayUpdate x_messageStartTime x_tempMessageStartTime
    x_statusScreenStartTime x_unlockTimerActive x_unlockedByAuth
    x_manualUnlocked x_sleepEnabled x_temporaryMessageActive
    x_statusScreenActive x_clock x_trace.

Definition set_lastDisplayUpdate (v : Z) (st : State) : State :=
  let '(mkState x_solenoid x_unlockStartTime x_lastActivityTime
         x_lastWatchdogReset _ x_messageStartTime x_tempMessageStartTime
         x_statusScreenStartTime x_unlockTimerActive x_unlockedByAuth
         x_manualUnlocked x_sleepEnabled x_temporaryMessageActive
         x_statusScreenActive x_clock x_trace) := st in
  mkState x_solenoid x_unlockStartTime x_lastActivityTime
    x_lastWatchdogReset v x_messageStartTime x_tempMessageStartTime
    x_statusScreenStartTime x_unlockTimerActive x_unlockedByAuth
    x_manualUnlocked x_sleepEnabled x_temporaryMessageActive
    x_statusScreenActive x_clock x_trace.

Definition set_messageStartTime (v : Z) (st : State) : State :=
  let '(mkState x_solenoid x_unlockStartTime x_lastActivityTime
         x_lastWatchdogReset x_lastDisplayUpdate _ x_tempMessageStartTime
         x_statusScreenStartTime x_unlockTimerActive x_unlockedByAuth
         x_manualUnlocked x_sleepEnabled x_temporaryMessageActive
         x_statusScreenActive x_clock x_trace) := st in
  mkState x_solenoid x_unlockStartTime x_lastActivityTime
    x_lastWatchdogReset x_lastDisplayUpdate v x_tempMessageStartTime
    x_statusScreenStartTime x_unlockTimerActive x_unlockedByAuth
    x_manualUnlocked x_sleepEnabled x_temporaryMessageActive
    x_statusScreenActive x_clock x_trace.

Definition set_tempMessageStartTime (v : Z) (st : State) : State :=
  let '(mkState x_solenoid x_unlockStartTime x_lastActivityTime
         x_lastWatchdogReset x_lastDisplayUpdate x_messageStartTime _
         x_statusScreenStartTime x_unlockTimerActive x_unlockedByAuth
         x_manualUnlocked x_sleepEnabled x_temporaryMessageActive
         x_statusScreenActive x_clock x_trace) := st in
  mkState x_solenoid x_unlockStartTime x_lastActivityTime
    x_lastWatchdogReset x_lastDisplayUpdate x_messageStartTime v
    x_statusScreenStartTime x_unlockTimerActive x_unlockedByAuth
    x_manualUnlocked x_sleepEnabled x_temporaryMessageActive
    x_statusScreenActive x_clock x_trace.

Definition set_statusScreenStartTime (v : Z) (st : State) : State :=
  let '(mkState x_solenoid x_unlockStartTime x_lastActivityTime
         x_lastWatchdogReset x_lastDisplayUpdate x_messageStartTime
         x_tempMessageStartTime _ x_unlockTimerActive x_unlockedByAuth
         x_manualUnlocked x_sleepEnabled x_temporaryMessageActive
         x_statusScreenActive x_clock x_trace) := st in
  mkState x_solenoid x_unlockStartTime x_lastActivityTime
    x_lastWatchdogReset x_lastDisplayUpdate x_messageStartTime
    x_tempMessageStartTime v x_unlockTimerActive x_unlockedByAuth
    x_manualUnlocked x_sleepEnabled x_temporaryMessageActive
    x_statusScreenActive x_clock x_trace.

Definition set_unlockTimerActive (v : bool) (st : State) : State :=
  let '(mkState x_solenoid x_unlockStartTime x_lastActivityTime
         x_lastWatchdogReset x_lastDisplayUpdate x_messageStartTime
         x_tempMessageStartTime x_statusScreenStartTime _ x_unlockedByAuth
         x_manualUnlocked x_sleepEnabled x_temporaryMessageActive
         x_statusScreenActive x_clock x_trace) := st in
  mkState x_solenoid x_unlockStartTime x_lastActivityTime
    x_lastWatchdogReset x_lastDisplayUpdate x_messageStartTime
    x_tempMessageStartTime x_statusScreenStartTime v x_unlockedByAuth
    x_manualUnlocked x_sleepEnabled x_temporaryMessageActive
    x_statusScreenActive x_clock x_trace.

Definition set_unlockedByAuth (v : bool) (st : State) : State :=
  let '(mkState x_solenoid x_unlockStartTime x_lastActivityTime
         x_lastWatchdogReset x_lastDisplayUpdate x_messageStartTime
         x_tempMessageStartTime x_statusScreenStartTime x_unlockTimerActive
         _ x_manualUnlocked x_sleepEnabled x_temporaryMessageActive
         x_statusScreenActive x_clock x_trace) := st in
  mkState x_solenoid x_unlockStartTime x_lastActivityTime
    x_lastWatchdogReset x_lastDisplayUpdate x_messageStartTime
    x_tempMessageStartTime x_statusScreenStartTime x_unlockTimerActive v
    x_manualUnlocked x_sleepEnabled x_temporaryMessageActive
    x_statusScreenActive x_clock x_trace.

Definition set_manualUnlocked (v : bool) (st : State) : State :=
  let '(mkState x_solenoid x_unlockStartTime x_lastActivityTime
         x_lastWatchdogReset x_lastDisplayUpdate x_messageStartTime
         x_tempMessageStartTime x_statusScreenStartTime x_unlockTimerActive
         x_unlockedByAuth _ x_sleepEnabled x_temporaryMessageActive
         x_statusScreenActive x_clock x_trace) := st in
  mkState x_solenoid x_unlockStartTime x_lastActivityTime
    x_lastWatchdogReset x_lastDisplayUpdate x_messageStartTime
    x_tempMessageStartTime x_statusScreenStartTime x_unlockTimerActive
    x_unlockedByAuth v x_sleepEnabled x_temporaryMessageActive
    x_statusScreenActive x_clock x_trace.

Definition set_sleepEnabled (v : bool) (st : State) : State :=
  let '(mkState x_solenoid x_unlockStartTime x_lastActivityTime
         x_lastWatchdogReset x_lastDisplayUpdate x_messageStartTime
         x_tempMessageStartTime x_statusScreenStartTime x_unlockTimerActive
         x_unlockedByAuth x_manualUnlocked _ x_temporaryMessageActive
         x_statusScreenActive x_clock x_trace) := st in
  mkState x_solenoid x_unlockStartTime x_lastActivityTime
    x_lastWatchdogReset x_lastDisplayUpdate x_messageStartTime
    x_tempMessageStartTime x_statusScreenStartTime x_unlockTimerActive
    x_unlockedByAuth x_manualUnlocked v x_temporaryMessageActive
    x_statusScreenActive x_clock x_trace.

Definition set_temporaryMessageActive (v : bool) (st : State) : State :=
  let '(mkState x_solenoid x_unlockStartTime x_lastActivityTime
         x_lastWatchdogReset x_lastDisplayUpdate x_messageStartTime
         x_tempMessageStartTime x_statusScreenStartTime x_unlockTimerActive
         x_unlockedByAuth x_manualUnlocked x_sleepEnabled _
         x_statusScreenActive x_clock x_trace) := st in
  mkState x_solenoid x_unlockStartTime x_lastActivityTime
    x_lastWatchdogReset x_lastDisplayUpdate x_messageStartTime
    x_tempMessageStartTime x_statusScreenStartTime x_unlockTimerActive
    x_unlockedByAuth x_manualUnlocked x_sleepEnabled v x_statusScreenActive
    x_clock x_trace.

Definition set_statusScreenActive (v : bool) (st : State) : State :=
  let '(mkState x_solenoid x_unlockStartTime x_lastActivityTime
         x_lastWatchdogReset x_lastDisplayUpdate x_messageStartTime
         x_tempMessageStartTime x_statusScreenStartTime x_unlockTimerActive
         x_unlockedByAuth x_manualUnlocked x_sleepEnabled
         x_temporaryMessageActive _ x_clock x_trace) := st in
  mkState x_solenoid x_unlockStartTime x_lastActivityTime
    x_lastWatchdogReset x_lastDisplayUpdate x_messageStartTime
    x_tempMessageStartTime x_statusScreenStartTime x_unlockTimerActive
    x_unlockedByAuth x_manualUnlocked x_sleepEnabled
    x_temporaryMessageActive v x_clock x_trace.

Definition set_clock (v : Z) (st : State) : State :=
  let '(mkState x_solenoid x_unlockStartTime x_lastActivityTime
         x_lastWatchdogReset x_lastDisplayUpdate x_messageStartTime
         x_tempMessageStartTime x_statusScreenStartTime x_unlockTimerActive
         x_unlockedByAuth x_manualUnlocked x_sleepEnabled
         x_temporaryMessageActive x_statusScreenActive _ x_trace) := st in
  mkState x_solenoid x_unlockStartTime x_lastActivityTime
    x_lastWatchdogReset x_lastDisplayUpdate x_messageStartTime
    x_tempMessageStartTime x_statusScreenStartTime x_unlockTimerActive
    x_unlockedByAuth x_manualUnlocked x_sleepEnabled
    x_temporaryMessageActive x_statusScreenActive v x_trace.

Definition set_trace (v : list Output) (st : State) : State :=
  let '(mkState x_solenoid x_unlockStartTime x_lastActivityTime
         x_lastWatchdogReset x_lastDisplayUpdate x_messageStartTime
         x_tempMessageStartTime x_statusScreenStartTime x_unlockTimerActive
         x_unlockedByAuth x_manualUnlocked x_sleepEnabled
         x_temporaryMessageActive x_statusScreenActive x_clock _) := st in
  mkState x_solenoid x_unlockStartTime x_lastActivityTime
    x_lastWatchdogReset x_lastDisplayUpdate x_messageStartTime
    x_tempMessageStartTime x_statusScreenStartTime x_unlockTimerActive
    x_unlockedByAuth x_manualUnlocked x_sleepEnabled
    x_temporaryMessageActive x_statusScreenActive x_clock v.

Definition power_on : State :=
  mkState LOW 0 0 0 0 0 0 0 false false false true false false 0 [].

Definition emit (o : Output) (st : State) : State :=
  set_trace (trace st ++ [o]) st.

Definition millis (st : State) : Z := clock st.

Definition delay (ms : Z) (st : State) : State :=
  emit (Hw (Delay ms)) (set_clock (uadd (clock st) ms) st).

Definition println (s : string) (st : State) : State :=
  emit (Hw (SerialPrintln s)) st.

Definition print (s : string) (st : State) : State :=
  emit (Hw (SerialPrint s)) st.

Definition digitalWrite (pin : Z) (v : Level) (st : State) : State :=
  let st := emit (Hw (DigitalWrite pin v)) st in
  if pin =? SOLENOID_PIN then set_solenoid v st else st.

Definition digitalRead (pin : Z) (st : State) : Level :=
  if pin =? SOLENOID_PIN then solenoid st else LOW.

Definition isDoorUnlocked (st : State) : bool :=
  level_eqb (digitalRead SOLENOID_PIN st) HIGH.

Definition showTemporaryMessage (line1 line2 : string) (st : State) : State :=
  let st := emit (DrawMessage line1 line2) st in
  let st := set_messageStartTime (millis st) st in
  let st := set_temporaryMessageActive true st in
  set_tempMessageStartTime (millis st) st.

Definition showIntroScreen (st : State) : State :=
  let doorLocked := negb (isDoorUnlocked st) in
  emit (DrawIntro doorLocked) st.

Definition showStatus (st : State) : State :=
  emit (DrawStatus (isDoorUnlocked st)) st.

Definition setup (st : State) : State :=
  let st := delay 100 st in
  let st := digitalWrite SOLENOID_PIN LOW st in
  let st := set_lastActivityTime (millis st) st in
  let st := delay 100 st in
  let st := showIntroScreen st in
  let st := emit WdtEnable st in
  let st := set_lastWatchdogReset (millis st) st in
  let st := println "Solenoid Lock Control System with RFID" st in
  let st := println "Watchdog timer enabled with 8-second timeout" st in
  let st := println "System will auto-reset if it becomes unresponsive" st in
  let st :=
    if DEBUG then
      println "Commands: U=Unlock, L=Lock, S=Status, M=Toggle Session Mode, Z=Toggle Sleep Mode"
        (println "DEBUG mode is ON - Serial commands are enabled" st)
    else println "DEBUG mode is OFF - Serial commands are disabled" st in
  println "Place your RFID card near the reader to unlock..." st.

Definition updateDisplay (st : State) : State :=
  let currentMillis := millis st in
  if temporaryMessageActive st then
    if usub currentMillis (tempMessageStartTime st) >=? TEMP_MESSAGE_DURATION
    then
      let st := set_temporaryMessageActive false st in
      let st := showStatus st in
      let st := set_statusScreenActive true st in
      set_statusScreenStartTime currentMillis st
    else st
  else if statusScreenActive st then
    if usub currentMillis (statusScreenStartTime st)
       >=? STATUS_DISPLAY_DURATION
    then
      let st := set_statusScreenActive false st in
      showIntroScreen st
    else st
  else st.

Definition unlockDoor (st : State) : State :=
  let st := println "Unlocking door..." st in
  let st := digitalWrite SOLENOID_PIN HIGH st in
  let st := set_unlockStartTime (millis st) st in
  let st := set_unlockTimerActive true st in
  let st := set_lastActivityTime (millis st) st in
  let st := set_unlockedByAuth true st in
  let st := set_manualUnlocked false st in
  println "Door unlocked - will auto-lock after timeout" st.

Definition lockDoor (st : State) : State :=
  let st := println "Locking door..." st in
  let st := digitalWrite SOLENOID_PIN LOW st in
  let st := set_unlockTimerActive false st in
  let st := set_lastActivityTime (millis st) st in
  let st := println "Door locked" st in
  showTemporaryMessage "Timed Out" "Drawer Locked" st.

(** [logRFIDDetails] writes the card to the serial port and waits a
    second; the dump is kept as one event. *)
Definition logRFIDDetails (u : Uid) (st : State) : State :=
  delay 1000 (emit (Hw (RfidLog u)) st).

(** The loops of [checkRFID] are those of the RFID sketch. *)
Definition authorized (u : Uid) : bool :=
  RfidLock.authorizedAmong (uidByte u) authorizedUIDs.

Definition checkRFID (card : option Uid) (st : State) : State :=
  if isDoorUnlocked st then st
  else
    match card with
    | None => st
    | Some u =>
        let st := if DEBUG then logRFIDDetails u st else st in
        let st :=
          if authorized u then
            let st := println "Authorized card detected" st in
            let st :=
              showTemporaryMessage "Access granted!" "Drawer unlocked." st in
            unlockDoor st
          else println "Unauthorized card - access denied" st in
        let st := emit (Hw RfidHalt) st in
        set_lastActivityTime (millis st) st
    end.

Definition printStatus (st : State) : State :=
  let st := println "----------------------------------------" st in
  let st := println "System Status:" st in
  let st :=
    println (String.append "Door is: "
               (if level_eqb (digitalRead SOLENOID_PIN st) HIGH
                then "UNLOCKED" else "LOCKED")) st in
  let st :=
    println (String.append "Sleep mode: "
               (if sleepEnabled st then "ENABLED" else "DISABLED")) st in
  println "----------------------------------------" st.

(** One iteration of the loop of [checkSerial]. *)
Definition serialCommand (command : ascii) (st : State) : State :=
  let st := set_lastActivityTime (millis st) st in
  if RfidLock.is_whitespace command then st
  else if isDoorUnlocked st then
    if ((command =? "l") || (command =? "L"))%char then lockDoor st
    else if ((command =? "s") || (command =? "S"))%char then printStatus st
    else st
  else
    let st :=
      if ((command =? "u") || (command =? "U"))%char then unlockDoor st
      else if ((command =? "l") || (command =? "L"))%char then lockDoor st
      else if ((command =? "s") || (command =? "S"))%char then printStatus st
      else if ((command =? "z") || (command =? "Z"))%char then
        let st := set_sleepEnabled (negb (sleepEnabled st)) st in
        println (if sleepEnabled st then "Sleep mode enabled"
                 else "Sleep mode disabled") st
      else
        emit (Hw (SerialPrintlnChar command)) (print "Unknown command: " st) in
    delay 10 st.

Fixpoint checkSerial (buffer : list ascii) (st : State) : State :=
  match buffer with
  | [] => st
  | command :: rest => checkSerial rest (serialCommand command st)
  end.

Definition handleUnlockTimer (st : State) : State :=
  if unlockTimerActive st then
    if usub (millis st) (unlockStartTime st) >=? UNLOCK_TIME then
      set_unlockTimerActive false (lockDoor st)
    else st
  else st.

(** One pass of [loop]: [card] is what the reader offers, [serial] what
    waits in the receive buffer (read and dropped when [DEBUG] is
    off). *)
Definition loop (card : option Uid) (serial : list ascii) (st : State)
    : State :=
  let currentMillis := millis st in
  let st :=
    if usub currentMillis (lastWatchdogReset st) >=? WATCHDOG_PERIOD / 2 then
      set_lastWatchdogReset currentMillis (emit (Hw WdtReset) st)
    else st in
  let st := checkRFID card st in
  let st := if DEBUG then checkSerial serial st else st in
  let st := handleUnlockTimer st in
  if usub currentMillis (lastDisplayUpdate st) >=? DISPLAY_UPDATE_RATE then
    updateDisplay (set_lastDisplayUpdate currentMillis st)
  else st.

(** The state with the clock at real time [t]. *)
Definition at_time (t : Z) (st : State) : State :=
  set_clock (millis_at t) st.

Definition booted : State := setup power_on.

(** Passes of [loop], each at its own real time with its own inputs. *)
Fixpoint run (passes : list (Z * (option Uid * list ascii))) (st : State)
    : State :=
  match passes with
  | [] => st
  | (t, (card, serial)) :: rest => run rest (loop card serial (at_time t st))
  end.

(** The events a call has added to the trace of [before]. *)
Definition added (before after : State) : list Output :=
  skipn (List.length (trace before)) (trace after).

(** The screens among the events, in the order they were drawn. *)
Definition screens (evs : list Output) : list Output :=
  filter (fun o => match o with
                   | DrawMessage _ _ | DrawIntro _ | DrawStatus _ => true
                   | _ => false
                   end) evs.

(** The state without the record of its effects. *)
Definition quiet (st : State) : State := set_trace [] st.

(** The watchdog has been reset among the events. *)
Definition resets_watchdog (evs : list Output) : bool :=
  existsb (fun o => match o with Hw WdtReset => true | _ => false end) evs.

End OledLock.

(** ** Predicates on states and inputs *)

Module Safety.
Import RfidLock Scenario.

(** The lock, its timer and its two indicator LEDs agree: the door is
    unlocked exactly while the unlock timer runs, the green LED follows
    the solenoid and the red LED is its opposite. *)
Definition consistent (st : State) : bool :=
  Bool.eqb (isDoorUnlocked st) (unlockTimerActive st)
  && level_eqb (ledGreen st) (solenoid st)
  && negb (level_eqb (ledRed st) (solenoid st)).

(** A pass in which nothing authorises: no character on the serial
    port, and no card or a card that the table does not hold. *)
Definition no_credential (inp : Inputs) : bool :=
  match serial inp with
  | [] =>
      match card inp with
      | None => true
      | Some u => negb (authorizedAmong (uidByte u) authorizedUIDs)
      end
  | _ :: _ => false
  end.

(** Nobody has authenticated since power-on: the door is locked, no
    timer runs, and neither the override nor session mode is armed. *)
Definition unauthenticated (st : State) : bool :=
  negb (isDoorUnlocked st) && negb (unlockTimerActive st)
  && negb (unlockedByAuth st) && negb (sessionModeActive st).

(** No event of the list energises the solenoid. *)
Definition never_energised (evs : list Event) : bool :=
  negb (existsb (event_eqb_write SOLENOID_PIN HIGH) evs).

(** From [st] to [st'] only events were added to the trace, none of
    them energises the solenoid, and [st'] is unauthenticated. *)
Definition locked_out_step (st st' : State) : Prop :=
  unauthenticated st' = true /\
  exists evs, trace st' = trace st ++ evs /\ never_energised evs = true.

(** The number that [printStatus] prints for the remaining session
    time, if it prints one. *)
Definition printed_numbers (evs : list Event) : list Z :=
  flat_map (fun e => match e with SerialPrintNum n => [n] | _ => [] end) evs.

(** A card whose UID has seven bytes and starts like card 1. *)
Definition long_card : Uid :=
  mkUid 7 [0xB3; 0x4A; 0x9E; 0x29; 0x11; 0x22; 0x33; 0; 0; 0] 0.

(** [checkSleep] is about to suspend the processor. *)
Definition sleepDue (st : State) : bool :=
  sleepEnabled st
  && (usub (millis st) (lastActivityTime st) >? SLEEP_AFTER_TIME)
  && negb (isDoorUnlocked st).

(** The state apart from the debounce bookkeeping of
    [checkManualUnlock]. *)
Definition forget_debounce (st : State) : State :=
  set_lastDebounceTime 0 (set_buttonState HIGH (set_lastButtonState HIGH st)).

(** Passes of the loop of lock_v1, each at its own real time: the two
    button readings and the character on the serial port, if any. *)
Fixpoint run_v1 (passes : list (Z * (Level * option ascii * Level)))
    (st : LockV1.State) : LockV1.State :=
  match passes with
  | [] => st
  | (t, (r1, c, r2)) :: rest =>
      run_v1 rest (LockV1.loop r1 c r2 (LockV1.at_time t st))
  end.

Definition booted_v1 : LockV1.State := LockV1.setup LockV1.power_on.

(** lock_v1: the pass brings no unlock command. *)
Definition no_unlock_command (pass : Z * (Level * option ascii * Level)) : bool :=
  match pass with
  | (_, (_, Some c, _)) => negb ((c =? "u") || (c =? "U"))%char
  | (_, (_, None, _)) => true
  end.

(** lock_v1: the manual override is available. *)
Definition override_armed (st : LockV1.State) : bool :=
  LockV1.unlockedByAuth st && negb (LockV1.manualUnlocked st).

(** lock_v1: no event of the list energises the solenoid. *)
Definition never_energised_v1 (evs : list Event) : bool :=
  negb (existsb (event_eqb_write LockV1.solenoidPin HIGH) evs).

(** lock_v1: from [st] to [st'] only events were added to the trace,
    none of them energises the solenoid, and the override is not armed
    in [st']. *)
Definition disarmed_step (st st' : LockV1.State) : Prop :=
  override_armed st' = false /\
  exists evs, LockV1.trace st' = LockV1.trace st ++ evs
              /\ never_energised_v1 evs = true.

Definition energised_v1 (before after : LockV1.State) : bool :=
  existsb (event_eqb_write LockV1.solenoidPin HIGH)
    (skipn (List.length (LockV1.trace before)) (LockV1.trace after)).

(** The OLED sketch: from [st] to [st'] no time has passed, the
    watchdog bookkeeping is untouched and the events added do not reset
    the watchdog. *)
Definition instant_step (st st' : OledLock.State) : Prop :=
  OledLock.clock st' = OledLock.clock st /\
  OledLock.lastWatchdogReset st' = OledLock.lastWatchdogReset st /\
  exists evs, OledLock.trace st' = OledLock.trace st ++ evs
              /\ OledLock.resets_watchdog evs = false.

(** The OLED sketch: the timer test of [handleUnlockTimer]. *)
Definition oled_timer_expired (st : OledLock.State) : bool :=
  OledLock.unlockTimerActive st
  && (usub (OledLock.millis st) (OledLock.unlockStartTime st)
      >=? OledLock.UNLOCK_TIME).

End Safety.

(** * Properties *)

Import RfidLock Scenario.

(** ** Auxiliary facts *)

Arguments wrap32 : simpl never.
Arguments uadd : simpl never.
Arguments usub : simpl never.
Arguments millis_at : simpl never.

Lemma skipn_length_app {A : Type} (l r : list A) :
  skipn (List.length l) (l ++ r) = r.
Proof. induction l as [|x l IH]; simpl; auto. Qed.

Lemma skipn_length_self {A : Type} (l : list A) :
  skipn (List.length l) l = [].
Proof. induction l as [|x l IH]; simpl; auto. Qed.

(** Subtracting two readings of the millisecond counter gives the real
    elapsed time as long as less than 2^32 ms have passed. *)
Lemma usub_elapsed (T t : Z) :
  T <= t -> t - T < ULONG_RANGE ->
  usub (millis_at t) (millis_at T) = t - T.
Proof.
  intros Hle Hlt. unfold usub, millis_at, wrap32.
  rewrite <- Zminus_mod. apply Z.mod_small. lia.
Qed.

Lemma added_self (st : State) : added st st = [].
Proof. unfold added. apply skipn_length_self. Qed.

(** The comparison loops of [checkRFID] accept exactly the cards whose
    first four bytes are an entry of the table. *)
Lemma uidMatch_four (uid entry : list Z) :
  List.length entry = 4%nat ->
  uidMatch uid entry 0 4 = true <->
  [nth 0 uid 0; nth 1 uid 0; nth 2 uid 0; nth 3 uid 0] = entry.
Proof.
  intros Hlen.
  destruct entry as [|a [|b [|c [|d [|e entry]]]]]; try discriminate.
  simpl.
  destruct (Z.eqb_spec (nth 0 uid 0) a); simpl;
    [| split; [discriminate | intros H; injection H; intros; contradiction]].
  destruct (Z.eqb_spec (nth 1 uid 0) b); simpl;
    [| split; [discriminate | intros H; injection H; intros; contradiction]].
  destruct (Z.eqb_spec (nth 2 uid 0) c); simpl;
    [| split; [discriminate | intros H; injection H; intros; contradiction]].
  destruct (Z.eqb_spec (nth 3 uid 0) d); simpl;
    [| split; [discriminate | intros H; injection H; intros; contradiction]].
  split; intros _; congruence.
Qed.

Lemma authorizedAmong_In (uid : list Z) (cards : list (list Z)) :
  Forall (fun entry => List.length entry = 4%nat) cards ->
  authorizedAmong uid cards = true <->
  In [nth 0 uid 0; nth 1 uid 0; nth 2 uid 0; nth 3 uid 0] cards.
Proof.
  induction 1 as [|entry rest Hlen Hrest IH].
  - simpl. split; [discriminate | contradiction].
  - cbn [authorizedAmong In].
    destruct (uidMatch uid entry 0 4) eqn:Hm.
    + apply (uidMatch_four uid entry Hlen) in Hm. split; auto.
    + rewrite IH. split; [auto | intros [Heq | Hin]; auto].
      symmetry in Heq. apply (uidMatch_four uid entry Hlen) in Heq.
      congruence.
Qed.

Lemma authorizedUIDs_width :
  Forall (fun entry => List.length entry = 4%nat) authorizedUIDs.
Proof. repeat constructor. Qed.

Lemma authorized_iff (u : Uid) :
  authorizedAmong (uidByte u) authorizedUIDs = true <->
  In (candidate u) authorizedUIDs.
Proof. apply authorizedAmong_In, authorizedUIDs_width. Qed.

(** Symbolic execution of the sketch on a state whose fields are
    variables: everything is computed except the arithmetic on time
    stamps and the bookkeeping of the trace. *)
Ltac exec :=
  lazy -[uadd usub millis_at wrap32 Z.geb Z.gtb Z.leb Z.ltb Z.div
         Z.add Z.sub Z.modulo app skipn List.length existsb
         event_eqb_write is_sleep].

Ltac exec_in H :=
  lazy -[uadd usub millis_at wrap32 Z.geb Z.gtb Z.leb Z.ltb Z.div
         Z.add Z.sub Z.modulo app skipn List.length existsb
         event_eqb_write is_sleep] in H.

(** After [exec], the events a call has added are a suffix of the
    trace. *)
Ltac new_events :=
  rewrite <- ?app_assoc; rewrite ?skipn_length_app, ?skipn_length_self;
  cbn [app].

Lemma energised_self (st : State) : energised st st = false.
Proof. unfold energised. rewrite added_self. reflexivity. Qed.

(** C1. Scanning a card while the door is locked unlocks it (and
    energises the solenoid at all) exactly when the first four bytes of
    the card equal an entry of [authorizedUIDs]; a card that matches no
    entry leaves the solenoid latch, the unlock timer and the
    authentication flags as they were, whatever the state, and only
    flashes the red LED. *)
Theorem checkRFID_unlocks_only_on_match (u : Uid) (st : State) :
  (isDoorUnlocked st = false ->
   (isDoorUnlocked (checkRFID (Some u) st) = true <->
    In (candidate u) authorizedUIDs) /\
   (energised st (checkRFID (Some u) st) = true <->
    In (candidate u) authorizedUIDs)) /\
  (~ In (candidate u) authorizedUIDs ->
   solenoid (checkRFID (Some u) st) = solenoid st /\
   energised st (checkRFID (Some u) st) = false /\
   unlockTimerActive (checkRFID (Some u) st) = unlockTimerActive st /\
   unlockStartTime (checkRFID (Some u) st) = unlockStartTime st /\
   unlockedByAuth (checkRFID (Some u) st) = unlockedByAuth st /\
   manualUnlocked (checkRFID (Some u) st) = manualUnlocked st /\
   sessionModeActive (checkRFID (Some u) st) = sessionModeActive st).
Proof.
  rewrite <- (authorized_iff u). unfold checkRFID, isDoorUnlocked.
  destruct (authorizedAmong (uidByte u) authorizedUIDs) eqn:Ha;
    destruct st as [sol ? ? ? ? ? ? ? session ? ? ? ? ? ? tr].
  - split; [intros Hl | intros Hnot; now elim Hnot].
    exec_in Hl. exec. rewrite Hl.
    destruct session; exec; new_events; cbn; split; split; reflexivity.
  - split; [intros Hl | intros _].
    + exec_in Hl. exec. rewrite Hl. exec. new_events. cbn.
      rewrite Hl. split; split; intros; discriminate.
    + exec. destruct sol; exec; new_events; cbn; repeat split.
Qed.

Lemma checkRFID_unlocks_only_on_match_witness :
  isDoorUnlocked (checkRFID (Some card1) (at_time 1000 booted)) = true /\
  solenoid (checkRFID (Some stranger) (at_time 1000 booted)) = LOW.
Proof.
  split.
  - apply (proj1 (checkRFID_unlocks_only_on_match card1 (at_time 1000 booted))).
    + reflexivity.
    + simpl. auto.
  - apply (proj2 (checkRFID_unlocks_only_on_match stranger (at_time 1000 booted))).
    simpl. intros [H | [H | []]]; discriminate.
Defined.

(** ** Manual override *)

(** [unlockDoor] leaves the flags of an accepted credential: the manual
    override is armed and session mode is on. *)
Lemma unlockDoor_flags (st : State) :
  unlockedByAuth (unlockDoor st) = true /\
  manualUnlocked (unlockDoor st) = false /\
  sessionModeActive (unlockDoor st) = true /\
  unlockTimerActive (unlockDoor st) = true /\
  unlockStartTime (unlockDoor st) = millis st /\
  solenoid (unlockDoor st) = HIGH.
Proof.
  destruct st as [? ? ? ? ? ? ? ? session ? ? ? ? ? ? ?].
  destruct session; exec; repeat split.
Qed.

(** The second press of the run [second_press] falls in the session
    that the accepted card opened: the one-shot flag is already set,
    yet the press energises the solenoid again. *)
Lemma second_press_unlocks_again :
  unlockedByAuth second_press = true /\
  manualUnlocked second_press = true /\
  sessionModeActive second_press = true /\
  buttonPressed LOW second_press = true /\
  energised second_press (checkManualUnlock LOW second_press) = true /\
  energised second_press (loop (idle LOW) second_press) = true.
Proof. vm_compute. repeat split. Qed.

(** C2, as the sketch has it. [unlockDoor] arms the override
    ([unlockedByAuth], not [manualUnlocked]) and turns session mode on.
    A debounced press while the door is locked performs the blocking
    timed unlock exactly when the override is armed or session mode is
    active, and the hold sets [manualUnlocked]. Once [manualUnlocked]
    is set, a further press repeats the hold as long as session mode is
    active, and is rejected without any change to the solenoid, the
    timer or the flags once session mode is off. *)
Theorem manual_override_gated_by_session
    (reading : Level) (st0 st : State) :
  (unlockedByAuth (unlockDoor st0) = true /\
   manualUnlocked (unlockDoor st0) = false /\
   sessionModeActive (unlockDoor st0) = true) /\
  (buttonPressed reading st = true ->
   let st' := checkManualUnlock reading st in
   let eligible :=
     (unlockedByAuth st && negb (manualUnlocked st))
     || sessionModeActive st in
   energised st st' = eligible /\
   (eligible = true ->
    manualUnlocked st' = true /\ clock st' = uadd (clock st) UNLOCK_TIME) /\
   (manualUnlocked st = true -> energised st st' = sessionModeActive st) /\
   (eligible = false -> manualUnlocked st' = manualUnlocked st) /\
   solenoid st' = solenoid st /\
   unlockedByAuth st' = unlockedByAuth st /\
   sessionModeActive st' = sessionModeActive st /\
   unlockTimerActive st' = unlockTimerActive st /\
   unlockStartTime st' = unlockStartTime st).
Proof.
  split.
  { pose proof (unlockDoor_flags st0) as (Ha & Hm & Hs & _).
    repeat split; assumption. }
  unfold buttonPressed, checkManualUnlock, isDoorUnlocked.
  destruct st as [sol ? ? ? ? ? ldt ? session auth manual ? lbs bs c tr].
  destruct sol, reading, lbs, bs; exec;
    destruct (usub c ldt >? 50); try discriminate.
  intros _.
  destruct session, auth, manual; exec; new_events; cbn;
    repeat split; intros; try reflexivity; try discriminate.
Qed.

Lemma manual_override_gated_by_session_witness :
  energised second_press (checkManualUnlock LOW second_press) = true.
Proof.
  exact (proj1 (proj2 (manual_override_gated_by_session LOW booted
                         second_press) (eq_refl true))).
Defined.

(** ** Unlock timer *)

Lemma handleUnlockTimer_expired (st : State) :
  handleUnlockTimer st =
  if unlockTimerExpired st then set_unlockTimerActive false (lockDoor st)
  else st.
Proof.
  unfold handleUnlockTimer, unlockTimerExpired.
  destruct (unlockTimerActive st); [| reflexivity].
  destruct (usub (millis st) (unlockStartTime st) >=? UNLOCK_TIME);
    reflexivity.
Qed.

(** Card 1 was accepted, the timer expires, the door is locked again:
    [unlockedByAuth] is still set afterwards. *)
Lemma relock_keeps_unlockedByAuth :
  isDoorUnlocked timer_due = true /\
  unlockTimerExpired timer_due = true /\
  isDoorUnlocked (handleUnlockTimer timer_due) = false /\
  unlockedByAuth (handleUnlockTimer timer_due) = true.
Proof. vm_compute. repeat split. Qed.

(** C3, as the sketch has it. When the unlock timer has expired,
    [handleUnlockTimer] calls [lockDoor]: the solenoid is released, the
    timer is deactivated, and [unlockedByAuth], [manualUnlocked] and
    [sessionModeActive] keep their values. *)
Theorem unlock_timer_expiry_relocks (st : State) :
  unlockTimerExpired st = true ->
  let st' := handleUnlockTimer st in
  st' = set_unlockTimerActive false (lockDoor st) /\
  isDoorUnlocked st' = false /\
  unlockTimerActive st' = false /\
  unlockedByAuth st' = unlockedByAuth st /\
  manualUnlocked st' = manualUnlocked st /\
  sessionModeActive st' = sessionModeActive st.
Proof.
  intros H. cbv zeta. rewrite handleUnlockTimer_expired, H.
  destruct st. exec. repeat split.
Qed.

Lemma unlock_timer_expiry_relocks_witness :
  isDoorUnlocked (handleUnlockTimer timer_due) = false.
Proof.
  exact (proj1 (proj2 (unlock_timer_expiry_relocks timer_due
                         (eq_refl true)))).
Defined.

(** ** Guards on the unlocked door *)

(** lock_v1 reads the button without looking at the lock: pressed while
    the door is unlocked and the override is armed, it runs the hold,
    releases the solenoid and spends the override. *)
Lemma v1_button_while_unlocked :
  LockV1.isDoorUnlocked v1_unlocked = true /\
  LockV1.manualUnlocked v1_unlocked = false /\
  LockV1.isDoorUnlocked (LockV1.manualButton LOW v1_unlocked) = false /\
  LockV1.manualUnlocked (LockV1.manualButton LOW v1_unlocked) = true /\
  LockV1.isDoorUnlocked (LockV1.loop LOW None LOW v1_unlocked) = false.
Proof. vm_compute. repeat split. Qed.

(** C4, as the sketches have it. In the RFID sketch
    [checkManualUnlock] returns at once while the door is unlocked:
    the state is the same whatever the button and the flags are.
    lock_v1 has no such guard; there the button changes nothing only
    while the override is not armed, and a press with the override
    armed ends with the solenoid released and the override spent,
    whether the door was locked or not. *)
Theorem button_ignored_while_unlocked
    (reading : Level) (st : State) (st1 : LockV1.State) :
  (isDoorUnlocked st = true -> checkManualUnlock reading st = st) /\
  (LockV1.unlockedByAuth st1 && negb (LockV1.manualUnlocked st1) = false ->
   LockV1.manualButton reading st1 = st1) /\
  (LockV1.unlockedByAuth st1 && negb (LockV1.manualUnlocked st1) = true ->
   LockV1.isDoorUnlocked (LockV1.manualButton LOW st1) = false /\
   LockV1.manualUnlocked (LockV1.manualButton LOW st1) = true).
Proof.
  repeat split.
  - intros H. unfold checkManualUnlock. rewrite H. reflexivity.
  - intros H. unfold LockV1.manualButton. rewrite H.
    destruct (level_eqb reading LOW); reflexivity.
  - unfold LockV1.manualButton. rewrite H. destruct st1. reflexivity.
  - unfold LockV1.manualButton. rewrite H. destruct st1. reflexivity.
Qed.

Lemma button_ignored_while_unlocked_witness :
  checkManualUnlock LOW still_unlocked = still_unlocked /\
  LockV1.manualButton LOW LockV1.power_on = LockV1.power_on /\
  LockV1.manualUnlocked (LockV1.manualButton LOW v1_unlocked) = true.
Proof.
  split; [| split].
  - apply (proj1 (button_ignored_while_unlocked LOW still_unlocked
                    LockV1.power_on)).
    reflexivity.
  - apply (proj1 (proj2 (button_ignored_while_unlocked LOW still_unlocked
                           LockV1.power_on))).
    reflexivity.
  - apply (proj2 (proj2 (button_ignored_while_unlocked LOW still_unlocked
                           v1_unlocked))).
    reflexivity.
Defined.

(** C5. [checkSleep] never reaches [enterSleepMode] while the solenoid
    pin reads HIGH: the state is returned as it is, so no sleep event is
    added, whatever the clock, the last activity and [sleepEnabled]
    are. In a pass of [loop], where [checkSleep] comes last, a door
    that is unlocked at that point means a pass without sleep. *)
Theorem never_sleeps_while_unlocked
    (wake : Z) (inp : Inputs) (st : State) :
  (isDoorUnlocked st = true ->
   checkSleep wake st = st /\
   existsb is_sleep (added st (checkSleep wake st)) = false) /\
  (isDoorUnlocked (loopBeforeSleep inp st) = true ->
   loop inp st = loopBeforeSleep inp st).
Proof.
  assert (Hsame : forall w s, isDoorUnlocked s = true -> checkSleep w s = s).
  { intros w s H. unfold checkSleep. unfold isDoorUnlocked in H. rewrite H.
    destruct (sleepEnabled s &&
              (usub (millis s) (lastActivityTime s) >? SLEEP_AFTER_TIME));
      reflexivity. }
  split.
  - intros H. rewrite (Hsame wake st H), added_self. split; reflexivity.
  - intros H. unfold loop. apply Hsame, H.
Qed.

Lemma never_sleeps_while_unlocked_witness :
  checkSleep 0 (at_time 500000 still_unlocked) = at_time 500000 still_unlocked
  /\ loop (idle HIGH) (at_time 5000 still_unlocked)
     = loopBeforeSleep (idle HIGH) (at_time 5000 still_unlocked).
Proof.
  split.
  - apply (proj1 (never_sleeps_while_unlocked 0 (idle HIGH)
                    (at_time 500000 still_unlocked))).
    reflexivity.
  - apply (proj2 (never_sleeps_while_unlocked 0 (idle HIGH)
                    (at_time 5000 still_unlocked))).
    reflexivity.
Defined.

(** The same check does suspend the processor once the door is locked:
    the theorem above is not vacuous. *)
Example sleeps_when_locked :
  existsb is_sleep
    (added (at_time 500000 booted) (checkSleep 0 (at_time 500000 booted)))
  = true.
Proof. vm_compute. reflexivity. Qed.

(** ** Serial commands *)

(** While the door is unlocked, [u] is not without effect: the RFID
    sketch refreshes [lastActivityTime], and lock_v1, which has no
    guard, runs [unlockDoor] again and restarts the unlock timer. *)
Lemma unlock_command_while_unlocked :
  isDoorUnlocked still_unlocked = true /\
  serialCommand "u" still_unlocked <> still_unlocked /\
  lastActivityTime still_unlocked = 1000 /\
  lastActivityTime (serialCommand "u" still_unlocked) = 5000 /\
  LockV1.isDoorUnlocked v1_unlocked = true /\
  LockV1.unlockStartTime v1_unlocked = 1000 /\
  LockV1.unlockStartTime (LockV1.serialCommand "u" v1_unlocked) = 1500.
Proof.
  repeat split; try (vm_compute; reflexivity).
  intros H. apply (f_equal lastActivityTime) in H. vm_compute in H.
  discriminate.
Qed.

Lemma char_not_in (c a b : ascii) (rest : list ascii) :
  ~ In c (a :: b :: rest) ->
  ((c =? a) || (c =? b))%char = false /\ ~ In c rest.
Proof.
  intros H. split.
  - apply orb_false_intro; apply Ascii.eqb_neq; intros ->; apply H;
      simpl; auto.
  - intros Hin. apply H. simpl. auto.
Qed.

Lemma char_in_pair (c a b : ascii) :
  In c [a; b] -> ((c =? a) || (c =? b))%char = true.
Proof.
  intros [<- | [<- | []]]; rewrite Ascii.eqb_refl; auto using orb_true_r.
Qed.

(** C6, as the sketches have it. While the door is unlocked,
    [checkSerial] of the RFID sketch runs [lockDoor] on [l]/[L] and
    [printStatus] on [s]/[S]; every other character (among them [u],
    [m], [z] and white space) produces no output and changes nothing
    but [lastActivityTime], which is refreshed for every character read.
    The status report leaves the pins, the timers and the flags alone.
    lock_v1 ignores the characters it does not know in every state, and
    runs [unlockDoor] on [u]/[U] in every state. *)
Theorem serial_while_unlocked
    (command : ascii) (st : State) (st1 : LockV1.State) :
  (isDoorUnlocked st = true ->
   ~ In command ["l"; "L"; "s"; "S"]%char ->
   serialCommand command st = set_lastActivityTime (millis st) st) /\
  (isDoorUnlocked st = true ->
   In command ["s"; "S"]%char ->
   quiet (serialCommand command st)
   = quiet (set_lastActivityTime (millis st) st)) /\
  (isDoorUnlocked st = true ->
   In command ["l"; "L"]%char ->
   serialCommand command st = lockDoor (set_lastActivityTime (millis st) st)) /\
  (~ In command ["u"; "U"; "l"; "L"; "s"; "S"]%char ->
   LockV1.serialCommand command st1 = st1) /\
  (In command ["u"; "U"]%char ->
   LockV1.serialCommand command st1 = LockV1.unlockDoor st1).
Proof.
  repeat split.
  - intros Hu Hc.
    apply char_not_in in Hc as [Hl Hc]. apply char_not_in in Hc as [Hs _].
    unfold serialCommand.
    destruct (is_whitespace command); [reflexivity |].
    destruct st. unfold isDoorUnlocked in *. exec_in Hu.
    revert Hl Hs. exec. intros Hl Hs. rewrite Hu, Hl, Hs. reflexivity.
  - intros Hu Hc.
    assert (Hl : ((command =? "l") || (command =? "L"))%char = false).
    { destruct Hc as [<- | [<- | []]]; reflexivity. }
    assert (Hw : is_whitespace command = false).
    { destruct Hc as [<- | [<- | []]]; reflexivity. }
    apply char_in_pair in Hc.
    unfold serialCommand. rewrite Hw.
    destruct st as [? ? ? ? ? ? ? ? session ? ? ? ? ? ? ?].
    unfold isDoorUnlocked in *. exec_in Hu.
    revert Hl Hc. exec. intros Hl Hc. rewrite Hu, Hl, Hc.
    destruct session; reflexivity.
  - intros Hu Hc.
    assert (Hw : is_whitespace command = false).
    { destruct Hc as [<- | [<- | []]]; reflexivity. }
    apply char_in_pair in Hc.
    unfold serialCommand. rewrite Hw.
    destruct st. unfold isDoorUnlocked in *. exec_in Hu.
    revert Hc. exec. intros Hc. rewrite Hu, Hc. reflexivity.
  - intros Hc.
    apply char_not_in in Hc as [Hu Hc]. apply char_not_in in Hc as [Hl Hc].
    apply char_not_in in Hc as [Hs _].
    unfold LockV1.serialCommand. rewrite Hu, Hl, Hs. reflexivity.
  - intros Hc. apply char_in_pair in Hc.
    unfold LockV1.serialCommand. rewrite Hc. reflexivity.
Qed.

Lemma serial_while_unlocked_witness :
  serialCommand "u" still_unlocked
  = set_lastActivityTime (millis still_unlocked) still_unlocked /\
  LockV1.serialCommand "m" v1_unlocked = v1_unlocked.
Proof.
  split.
  - apply (proj1 (serial_while_unlocked "u" still_unlocked v1_unlocked)).
    + reflexivity.
    + simpl. intros [H | [H | [H | [H | []]]]]; discriminate.
  - apply (proj1 (proj2 (proj2 (proj2
             (serial_while_unlocked "m" still_unlocked v1_unlocked))))).
    simpl. intros [H | [H | [H | [H | [H | [H | []]]]]]]; discriminate.
Defined.

(** [lockDoor] from any state. *)
Lemma lockDoor_locks (st : State) :
  isDoorUnlocked (lockDoor st) = false /\
  unlockTimerActive (lockDoor st) = false /\
  unlockTimerExpired (lockDoor st) = false.
Proof. destruct st. exec. repeat split. Qed.

Lemma v1_lockDoor_locks (st1 : LockV1.State) :
  LockV1.isDoorUnlocked (LockV1.lockDoor st1) = false /\
  LockV1.unlockTimerActive (LockV1.lockDoor st1) = false /\
  LockV1.unlockTimerExpired (LockV1.lockDoor st1) = false.
Proof. destruct st1. exec. repeat split. Qed.

(** C7. The serial lock command received while the door is unlocked
    releases the solenoid and deactivates the unlock timer, whatever the
    clock and the start of the timer are; so does a whole
    [checkSerial] on that one character. The same holds in lock_v1. *)
Theorem lock_command_relocks
    (command : ascii) (st : State) (st1 : LockV1.State) :
  In command ["l"; "L"]%char ->
  isDoorUnlocked st = true ->
  LockV1.isDoorUnlocked st1 = true ->
  (isDoorUnlocked (serialCommand command st) = false /\
   unlockTimerActive (serialCommand command st) = false /\
   checkSerial [command] st = lockDoor (set_lastActivityTime (millis st) st)) /\
  (LockV1.isDoorUnlocked (LockV1.serialCommand command st1) = false /\
   LockV1.unlockTimerActive (LockV1.serialCommand command st1) = false).
Proof.
  intros Hc Hu Hu1.
  assert (Heq : serialCommand command st
                = lockDoor (set_lastActivityTime (millis st) st)).
  { assert (Hw : is_whitespace command = false).
    { destruct Hc as [<- | [<- | []]]; reflexivity. }
    apply char_in_pair in Hc.
    unfold serialCommand. rewrite Hw.
    destruct st. unfold isDoorUnlocked in *. exec_in Hu.
    revert Hc. exec. intros Hc. rewrite Hu, Hc. reflexivity. }
  assert (Heq1 : LockV1.serialCommand command st1 = LockV1.lockDoor st1).
  { destruct Hc as [<- | [<- | []]]; reflexivity. }
  cbn [checkSerial]. rewrite Heq, Heq1. split.
  - pose proof (lockDoor_locks (set_lastActivityTime (millis st) st))
      as (Hl & Ht & _).
    repeat split; assumption.
  - pose proof (v1_lockDoor_locks st1) as (Hl & Ht & _).
    split; assumption.
Qed.

Lemma lock_command_relocks_witness :
  isDoorUnlocked (serialCommand "l" still_unlocked) = false /\
  LockV1.isDoorUnlocked (LockV1.serialCommand "l" v1_unlocked) = false.
Proof.
  assert (Hin : In "l"%char ["l"; "L"]%char) by (simpl; auto).
  split.
  - apply (lock_command_relocks "l" still_unlocked v1_unlocked Hin);
      reflexivity.
  - apply (lock_command_relocks "l" still_unlocked v1_unlocked Hin);
      reflexivity.
Defined.

(** ** Timers *)

(** The millisecond counter has rolled over once since the timer was
    armed at 1000 ms: 2^32 + 5 ms have passed, far more than
    [UNLOCK_TIME], and the test of [handleUnlockTimer] fails. *)
Lemma unlock_timer_misses_rollover :
  (1000 + UNLOCK_TIME <=? 2 ^ 32 + 1005) = true /\
  unlockTimerActive (unlockDoor (at_time 1000 booted)) = true /\
  unlockTimerExpired
    (at_time (2 ^ 32 + 1005) (unlockDoor (at_time 1000 booted))) = false /\
  handleUnlockTimer
    (at_time (2 ^ 32 + 1005) (unlockDoor (at_time 1000 booted)))
  = at_time (2 ^ 32 + 1005) (unlockDoor (at_time 1000 booted)).
Proof. vm_compute. repeat split. Qed.

Lemma at_time_unlockDoor (T t : Z) (st : State) :
  unlockTimerExpired (at_time t (unlockDoor (at_time T st)))
  = (usub (millis_at t) (millis_at T) >=? UNLOCK_TIME).
Proof.
  destruct st as [? ? ? ? ? ? ? ? session ? ? ? ? ? ? ?].
  destruct session; reflexivity.
Qed.

Lemma v1_at_time_unlockDoor (T t : Z) (st1 : LockV1.State) :
  LockV1.unlockTimerExpired
    (LockV1.at_time t (LockV1.unlockDoor (LockV1.at_time T st1)))
  = (usub (millis_at t) (millis_at T) >=? LockV1.unlockTime).
Proof. destruct st1. reflexivity. Qed.

(** C8, as the sketches have it. The unlock timer armed by
    [unlockDoor] at real time [T] is reported expired at real time [t]
    exactly when [t >= T + UNLOCK_TIME], for every [t] from [T] up to
    the roll-over of the 32-bit difference, that is for
    [T <= t < T + 2^32]. After [lockDoor] has cancelled the timer it is
    not expired at any time, and [handleUnlockTimer] leaves the state
    alone. The same holds for the timer of lock_v1 with its
    [unlockTime]. *)
Theorem unlock_timer_expired_iff
    (T t : Z) (st : State) (st1 : LockV1.State) :
  T <= t -> t - T < ULONG_RANGE ->
  (unlockTimerExpired (at_time t (unlockDoor (at_time T st)))
   = (T + UNLOCK_TIME <=? t) /\
   (forall c t',
      let cancelled := lockDoor (at_time c (unlockDoor (at_time T st))) in
      unlockTimerExpired (at_time t' cancelled) = false /\
      handleUnlockTimer (at_time t' cancelled) = at_time t' cancelled)) /\
  (LockV1.unlockTimerExpired
     (LockV1.at_time t (LockV1.unlockDoor (LockV1.at_time T st1)))
   = (T + LockV1.unlockTime <=? t) /\
   (forall c t',
      let cancelled :=
        LockV1.lockDoor
          (LockV1.at_time c (LockV1.unlockDoor (LockV1.at_time T st1))) in
      LockV1.unlockTimerExpired (LockV1.at_time t' cancelled) = false /\
      LockV1.checkUnlockTimer (LockV1.at_time t' cancelled)
      = LockV1.at_time t' cancelled)).
Proof.
  intros Hle Hlt.
  rewrite at_time_unlockDoor, v1_at_time_unlockDoor.
  rewrite (usub_elapsed T t Hle Hlt).
  unfold UNLOCK_TIME, LockV1.unlockTime.
  repeat split.
  - rewrite Z.geb_leb. apply eq_true_iff_eq.
    rewrite !Z.leb_le. lia.
  - destruct st as [? ? ? ? ? ? ? ? session ? ? ? ? ? ? ?].
    destruct session; reflexivity.
  - destruct st as [? ? ? ? ? ? ? ? session ? ? ? ? ? ? ?].
    destruct session; reflexivity.
  - rewrite Z.geb_leb. apply eq_true_iff_eq.
    rewrite !Z.leb_le. lia.
  - destruct st1. reflexivity.
  - destruct st1. reflexivity.
Qed.

Lemma unlock_timer_expired_iff_witness :
  unlockTimerExpired (at_time 11000 (unlockDoor (at_time 1000 booted)))
  = true /\
  unlockTimerExpired (at_time 10999 (unlockDoor (at_time 1000 booted)))
  = false.
Proof.
  assert (H1 : 1000 <= 11000) by lia.
  assert (H2 : 11000 - 1000 < ULONG_RANGE) by reflexivity.
  assert (H3 : 1000 <= 10999) by lia.
  assert (H4 : 10999 - 1000 < ULONG_RANGE) by reflexivity.
  split.
  - exact (proj1 (proj1 (unlock_timer_expired_iff 1000 11000 booted
                           LockV1.power_on H1 H2))).
  - exact (proj1 (proj1 (unlock_timer_expired_iff 1000 10999 booted
                           LockV1.power_on H3 H4))).
Defined.

(** C9. When the session timer expires, [handleSessionTimer] clears
    [sessionModeActive] and prints one line; the pins, the unlock timer,
    the other flags, the time stamps and the button state keep their
    values. *)
Theorem session_expiry_only_ends_session (st : State) :
  sessionModeActive st = true ->
  (usub (millis st) (sessionStartTime st) >=? SESSION_DURATION) = true ->
  let st' := handleSessionTimer st in
  sessionModeActive st' = false /\
  quiet st' = quiet (set_sessionModeActive false st) /\
  solenoid st' = solenoid st /\
  unlockTimerActive st' = unlockTimerActive st /\
  unlockStartTime st' = unlockStartTime st /\
  unlockedByAuth st' = unlockedByAuth st /\
  manualUnlocked st' = manualUnlocked st /\
  added st st' = [SerialPrintln "Session mode expired"].
Proof.
  intros Ha He. unfold handleSessionTimer. rewrite Ha, He.
  destruct st. exec. new_events. repeat split.
Qed.

Lemma session_expiry_only_ends_session_witness :
  sessionModeActive
    (handleSessionTimer (at_time 7201000 still_unlocked)) = false.
Proof.
  apply (session_expiry_only_ends_session (at_time 7201000 still_unlocked));
    reflexivity.
Defined.

(** C10. [lockDoor] is defined on every state and leaves the solenoid
    released and the unlock timer inactive. A second call right after
    the first changes nothing in the state (it only repeats the two
    serial lines); a second call at a later time [t] changes nothing
    but [lastActivityTime], which becomes the time of the call. The
    same holds in lock_v1, which keeps no activity time. *)
Theorem lockDoor_idempotent (t : Z) (st : State) (st1 : LockV1.State) :
  (isDoorUnlocked (lockDoor st) = false /\
   unlockTimerActive (lockDoor st) = false /\
   quiet (lockDoor (lockDoor st)) = quiet (lockDoor st) /\
   quiet (lockDoor (at_time t (lockDoor st)))
   = quiet (set_lastActivityTime (millis_at t) (at_time t (lockDoor st)))) /\
  (LockV1.isDoorUnlocked (LockV1.lockDoor st1) = false /\
   LockV1.unlockTimerActive (LockV1.lockDoor st1) = false /\
   LockV1.quiet (LockV1.lockDoor (LockV1.lockDoor st1))
   = LockV1.quiet (LockV1.lockDoor st1) /\
   LockV1.quiet (LockV1.lockDoor (LockV1.at_time t (LockV1.lockDoor st1)))
   = LockV1.quiet (LockV1.at_time t (LockV1.lockDoor st1))).
Proof.
  split.
  - destruct st. exec. repeat split.
  - destruct st1. exec. repeat split.
Qed.

(** * Further properties of the sketches *)

Import Safety.

(** ** The RFID sketch: consistency of lock, timer and LEDs *)

Lemma usub_same (c : Z) : usub c c = 0.
Proof. unfold usub, wrap32. rewrite Z.sub_diag. reflexivity. Qed.

(** Case analysis on the guards that symbolic execution leaves stuck:
    a Boolean variable, or a comparison of time stamps. *)
Ltac split_guards :=
  repeat (exec;
          match goal with
          | |- context [if ?b then _ else _] => is_var b; destruct b
          | |- context [match ?l with LOW => _ | HIGH => _ end] =>
              is_var l; destruct l
          | |- context [Z.gtb ?a ?b] => destruct (Z.gtb a b)
          | |- context [Z.geb ?a ?b] => destruct (Z.geb a b)
          end).

(** Only two settings of solenoid, LEDs and timer are consistent. *)
Ltac consistent_cases sol g r timer :=
  intros Hc; exec_in Hc;
  destruct sol, g, r, timer; try discriminate Hc; clear Hc.

Lemma consistent_checkRFID (c : option Uid) (st : State) :
  consistent st = true -> consistent (checkRFID c st) = true.
Proof.
  unfold checkRFID.
  destruct c as [u |]; [| destruct (isDoorUnlocked st); auto].
  generalize (authorizedAmong (uidByte u) authorizedUIDs) as ok. intros ok.
  destruct st as [sol g r ? ? ? ? timer session ? ? ? ? ? ? ?].
  consistent_cases sol g r timer; split_guards; reflexivity.
Qed.

Lemma consistent_serialCommand (command : ascii) (st : State) :
  consistent st = true -> consistent (serialCommand command st) = true.
Proof.
  unfold serialCommand.
  generalize (is_whitespace command) as w.
  generalize ((command =? "u") || (command =? "U"))%char as cu.
  generalize ((command =? "l") || (command =? "L"))%char as cl.
  generalize ((command =? "s") || (command =? "S"))%char as cs.
  generalize ((command =? "m") || (command =? "M"))%char as cm.
  generalize ((command =? "z") || (command =? "Z"))%char as cz.
  intros cz cm cs cl cu w.
  destruct st as [sol g r ? ? ? ? timer session ? ? sl ? ? ? ?].
  consistent_cases sol g r timer; split_guards; reflexivity.
Qed.

Lemma consistent_checkSerial (buffer : list ascii) (st : State) :
  consistent st = true -> consistent (checkSerial buffer st) = true.
Proof.
  revert st. induction buffer as [| command rest IH]; intros st H; [exact H |].
  cbn [checkSerial]. apply IH, consistent_serialCommand, H.
Qed.

Lemma consistent_checkManualUnlock (reading : Level) (st : State) :
  consistent st = true -> consistent (checkManualUnlock reading st) = true.
Proof.
  unfold checkManualUnlock.
  destruct st as [sol g r ? ? ? ldt timer session auth manual ? lbs bs c ?].
  consistent_cases sol g r timer; destruct reading, lbs, bs;
    split_guards; reflexivity.
Qed.

Lemma consistent_handleUnlockTimer (st : State) :
  consistent st = true -> consistent (handleUnlockTimer st) = true.
Proof.
  unfold handleUnlockTimer.
  destruct st as [sol g r ? ? ? ? timer ? ? ? ? ? ? ? ?].
  consistent_cases sol g r timer; split_guards; reflexivity.
Qed.

Lemma consistent_handleSessionTimer (st : State) :
  consistent st = true -> consistent (handleSessionTimer st) = true.
Proof.
  unfold handleSessionTimer.
  destruct st as [sol g r ? ? ? ? timer session ? ? ? ? ? ? ?].
  consistent_cases sol g r timer; split_guards; reflexivity.
Qed.

Lemma consistent_checkSleep (wake : Z) (st : State) :
  consistent st = true -> consistent (checkSleep wake st) = true.
Proof.
  unfold checkSleep.
  destruct st as [sol g r ? ? ? ? timer ? ? ? sl ? ? ? ?].
  consistent_cases sol g r timer; split_guards; reflexivity.
Qed.

Lemma consistent_loop (inp : Inputs) (st : State) :
  consistent st = true -> consistent (loop inp st) = true.
Proof.
  intros H. unfold loop, loopBeforeSleep. cbv zeta.
  apply consistent_checkSleep, consistent_handleSessionTimer,
    consistent_handleUnlockTimer, consistent_checkManualUnlock.
  change (if DEBUG then checkSerial (serial inp)
                          (checkRFID (card inp) (emit WdtReset st))
          else checkRFID (card inp) (emit WdtReset st))
    with (checkSerial (serial inp) (checkRFID (card inp) (emit WdtReset st))).
  apply consistent_checkSerial, consistent_checkRFID.
  destruct st. exact H.
Qed.

Lemma consistent_at_time (t : Z) (st : State) :
  consistent (at_time t st) = consistent st.
Proof. destruct st. reflexivity. Qed.

(** X1. In every state that passes of [loop] reach from the booted
    sketch, whatever the inputs and the times of the passes, the door is
    unlocked exactly when the unlock timer is active, the green LED is
    on exactly when the door is unlocked and the red LED exactly when it
    is locked. *)
Theorem reachable_consistent (passes : list (Z * Inputs)) :
  consistent (run passes booted) = true.
Proof.
  assert (Hgen : forall st, consistent st = true ->
                            consistent (run passes st) = true).
  { induction passes as [| [t inp] rest IH]; intros st H; [exact H |].
    cbn [run]. apply IH, consistent_loop.
    rewrite consistent_at_time. exact H. }
  apply Hgen. reflexivity.
Qed.

(** ** The RFID sketch: no way in without a credential *)

Lemma never_energised_app (a b : list Event) :
  never_energised (a ++ b) = never_energised a && never_energised b.
Proof.
  unfold never_energised. rewrite existsb_app. apply negb_orb.
Qed.

Ltac close_trace :=
  first
    [ exists []; split; [symmetry; apply app_nil_r | reflexivity]
    | eexists; split; [rewrite <- ?app_assoc; reflexivity | reflexivity] ].

Ltac locked_out_cases sol timer auth session :=
  unfold locked_out_step; intros Hu; exec_in Hu;
  destruct sol, timer, auth, session; try discriminate Hu; clear Hu.

Lemma locked_out_refl (st : State) :
  unauthenticated st = true -> locked_out_step st st.
Proof.
  intros H. split; [exact H |]. exists []. rewrite app_nil_r.
  split; reflexivity.
Qed.

Lemma locked_out_trans (a b c : State) :
  locked_out_step a b -> locked_out_step b c -> locked_out_step a c.
Proof.
  intros (_ & e1 & Ht1 & Hn1) (Hu & e2 & Ht2 & Hn2).
  split; [exact Hu |]. exists (e1 ++ e2). split.
  - rewrite Ht2, Ht1. apply eq_sym, app_assoc.
  - rewrite never_energised_app, Hn1, Hn2. reflexivity.
Qed.

Lemma locked_out_emit_wdt (st : State) :
  unauthenticated st = true -> locked_out_step st (emit WdtReset st).
Proof.
  destruct st as [sol ? ? ? ? ? ? timer session auth ? ? ? ? ? ?].
  locked_out_cases sol timer auth session.
  exec. split; [reflexivity | close_trace].
Qed.

Lemma locked_out_checkRFID (c : option Uid) (st : State) :
  match c with
  | Some u => authorizedAmong (uidByte u) authorizedUIDs = false
  | None => True
  end ->
  unauthenticated st = true -> locked_out_step st (checkRFID c st).
Proof.
  unfold checkRFID. destruct c as [u |].
  - intros ->.
    destruct st as [sol ? ? ? ? ? ? timer session auth ? ? ? ? ? ?].
    locked_out_cases sol timer auth session.
    exec. split; [reflexivity | close_trace].
  - intros _ H. destruct (isDoorUnlocked st); apply locked_out_refl, H.
Qed.

Lemma locked_out_checkManualUnlock (reading : Level) (st : State) :
  unauthenticated st = true ->
  locked_out_step st (checkManualUnlock reading st).
Proof.
  unfold checkManualUnlock.
  destruct st as [sol ? ? ? ? ? ? timer session auth ? ? lbs bs ? ?].
  locked_out_cases sol timer auth session.
  destruct reading, lbs, bs; split_guards;
    (split; [reflexivity | close_trace]).
Qed.

Lemma locked_out_handleUnlockTimer (st : State) :
  unauthenticated st = true -> locked_out_step st (handleUnlockTimer st).
Proof.
  unfold handleUnlockTimer.
  destruct st as [sol ? ? ? ? ? ? timer session auth ? ? ? ? ? ?].
  locked_out_cases sol timer auth session.
  exec. split; [reflexivity | close_trace].
Qed.

Lemma locked_out_handleSessionTimer (st : State) :
  unauthenticated st = true -> locked_out_step st (handleSessionTimer st).
Proof.
  unfold handleSessionTimer.
  destruct st as [sol ? ? ? ? ? ? timer session auth ? ? ? ? ? ?].
  locked_out_cases sol timer auth session.
  exec. split; [reflexivity | close_trace].
Qed.

Lemma locked_out_checkSleep (wake : Z) (st : State) :
  unauthenticated st = true -> locked_out_step st (checkSleep wake st).
Proof.
  unfold checkSleep.
  destruct st as [sol ? ? ? ? ? ? timer session auth ? sl ? ? ? ?].
  locked_out_cases sol timer auth session.
  split_guards; (split; [reflexivity | close_trace]).
Qed.

Lemma unauthenticated_loop (inp : Inputs) (st : State) :
  unauthenticated st = true -> no_credential inp = true ->
  locked_out_step st (loop inp st).
Proof.
  unfold no_credential, loop, loopBeforeSleep.
  destruct inp as [c s reading wake]. cbn [card serial button asleep].
  intros Hu Hc. destruct s as [| ? ?]; [| discriminate].
  assert (Hcard : match c with
                  | Some u => authorizedAmong (uidByte u) authorizedUIDs = false
                  | None => True
                  end).
  { destruct c as [u |]; [apply negb_true_iff, Hc | exact I]. }
  cbv zeta. cbn [checkSerial DEBUG].
  pose proof (locked_out_emit_wdt st Hu) as S1.
  pose proof (locked_out_checkRFID c _ Hcard (proj1 S1)) as S2.
  pose proof (locked_out_checkManualUnlock reading _ (proj1 S2)) as S3.
  pose proof (locked_out_handleUnlockTimer _ (proj1 S3)) as S4.
  pose proof (locked_out_handleSessionTimer _ (proj1 S4)) as S5.
  pose proof (locked_out_checkSleep wake _ (proj1 S5)) as S6.
  exact (locked_out_trans _ _ _ S1
           (locked_out_trans _ _ _ S2
              (locked_out_trans _ _ _ S3
                 (locked_out_trans _ _ _ S4
                    (locked_out_trans _ _ _ S5 S6))))).
Qed.

Lemma unauthenticated_run (passes : list (Z * Inputs)) (st : State) :
  unauthenticated st = true ->
  forallb (fun pass => no_credential (snd pass)) passes = true ->
  locked_out_step st (run passes st).
Proof.
  revert st. induction passes as [| [t inp] rest IH]; intros st Hu Hp.
  - apply locked_out_refl, Hu.
  - cbn [forallb snd] in Hp. apply andb_prop in Hp as [Hinp Hrest].
    cbn [run].
    assert (S0 : locked_out_step st (at_time t st)).
    { destruct st. split; [exact Hu |]. exists []. cbn.
      rewrite app_nil_r. split; reflexivity. }
    pose proof (unauthenticated_loop inp _ (proj1 S0) Hinp) as S1.
    pose proof (IH _ (proj1 S1) Hrest) as S2.
    exact (locked_out_trans _ _ _ S0 (locked_out_trans _ _ _ S1 S2)).
Qed.

(** X2. From the booted sketch, passes that bring no serial character
    and no card of the table never energise the solenoid, whatever the
    button does and whenever the passes happen; the door stays locked,
    and neither [unlockedByAuth] nor session mode gets set. *)
Theorem no_credential_never_opens (passes : list (Z * Inputs)) :
  forallb (fun pass => no_credential (snd pass)) passes = true ->
  energised booted (run passes booted) = false /\
  unauthenticated (run passes booted) = true.
Proof.
  intros Hp.
  destruct (unauthenticated_run passes booted eq_refl Hp)
    as (Hu & evs & Ht & Hn).
  split; [| exact Hu].
  unfold energised, added. rewrite Ht, skipn_length_app.
  unfold never_energised in Hn. apply negb_true_iff in Hn. exact Hn.
Qed.

Lemma no_credential_never_opens_witness :
  energised booted
    (run [(1000, scan stranger); (2000, idle LOW); (2100, idle LOW);
          (70000, idle HIGH)] booted) = false.
Proof.
  apply (no_credential_never_opens
           [(1000, scan stranger); (2000, idle LOW); (2100, idle LOW);
            (70000, idle HIGH)]).
  reflexivity.
Defined.

(** ** The RFID sketch: the door locks itself again *)

Lemma handleSessionTimer_keeps_lock (st : State) :
  isDoorUnlocked (handleSessionTimer st) = isDoorUnlocked st /\
  unlockTimerActive (handleSessionTimer st) = unlockTimerActive st.
Proof.
  unfold handleSessionTimer.
  destruct st as [? ? ? ? ? ? ? ? session ? ? ? ? ? ? ?].
  destruct session; split_guards; split; reflexivity.
Qed.

Lemma checkSleep_keeps_lock (wake : Z) (st : State) :
  isDoorUnlocked (checkSleep wake st) = isDoorUnlocked st /\
  unlockTimerActive (checkSleep wake st) = unlockTimerActive st.
Proof.
  unfold checkSleep.
  destruct st as [sol ? ? ? ? ? ? ? ? ? ? sl ? ? ? ?].
  destruct sl, sol; split_guards; split; reflexivity.
Qed.

(** X3. A pass of [loop] that starts with the door unlocked and the
    unlock timer expired, and finds nothing on the serial port, ends
    with the door locked and the timer inactive: no card and no button
    level keeps the door open. *)
Theorem expired_timer_relocks_in_pass (inp : Inputs) (st : State) :
  serial inp = [] ->
  isDoorUnlocked st = true ->
  unlockTimerExpired st = true ->
  isDoorUnlocked (loop inp st) = false /\
  unlockTimerActive (loop inp st) = false.
Proof.
  intros Hs Hu He.
  assert (Hu1 : isDoorUnlocked (emit WdtReset st) = true)
    by (destruct st; exact Hu).
  assert (He1 : unlockTimerExpired (emit WdtReset st) = true)
    by (destruct st; exact He).
  assert (Hpass : loopBeforeSleep inp st
                  = handleSessionTimer
                      (set_unlockTimerActive false
                         (lockDoor (emit WdtReset st)))).
  { unfold loopBeforeSleep. rewrite Hs. cbv zeta. cbn [checkSerial DEBUG].
    unfold checkRFID. rewrite Hu1.
    unfold checkManualUnlock. rewrite Hu1.
    rewrite handleUnlockTimer_expired, He1. reflexivity. }
  unfold loop. rewrite Hpass.
  rewrite (proj1 (checkSleep_keeps_lock _ _)), (proj2 (checkSleep_keeps_lock _ _)).
  rewrite (proj1 (handleSessionTimer_keeps_lock _)),
    (proj2 (handleSessionTimer_keeps_lock _)).
  clear. destruct st. split; reflexivity.
Qed.

Lemma expired_timer_relocks_in_pass_witness :
  isDoorUnlocked (loop (scan card1) timer_due) = false.
Proof.
  apply (expired_timer_relocks_in_pass (scan card1) timer_due);
    reflexivity.
Defined.

(** ** The RFID sketch: debounce *)

(** X4. Unless the call is a Button-Pressed event ([buttonPressed]),
    [checkManualUnlock] produces no output and changes nothing but its
    debounce bookkeeping ([lastDebounceTime], [buttonState],
    [lastButtonState]). A reading that differs from the previous one
    never is an event: it restarts the debounce window and leaves
    [buttonState] alone. *)
Theorem debounce_filters (reading : Level) (st : State) :
  (buttonPressed reading st = false ->
   forget_debounce (checkManualUnlock reading st) = forget_debounce st) /\
  (isDoorUnlocked st = false ->
   reading <> lastButtonState st ->
   checkManualUnlock reading st
   = set_lastButtonState reading (set_lastDebounceTime (millis st) st)).
Proof.
  unfold buttonPressed, checkManualUnlock, isDoorUnlocked.
  destruct st as [sol g r ? ? ? ldt timer session auth manual sl lbs bs clk tr].
  split.
  - destruct sol, reading, lbs, bs; exec; rewrite ?usub_same;
      try reflexivity;
      destruct (usub clk ldt >? 50); try reflexivity; discriminate.
  - intros Hl Hne. destruct sol; exec_in Hl; try discriminate Hl.
    destruct reading, lbs; cbn in Hne; try (now elim Hne);
      exec; rewrite usub_same; reflexivity.
Qed.

Lemma debounce_filters_witness :
  forget_debounce (checkManualUnlock LOW (at_time 12000 accepted_and_relocked))
  = forget_debounce (at_time 12000 accepted_and_relocked) /\
  checkManualUnlock LOW (at_time 12000 accepted_and_relocked)
  = set_lastButtonState LOW
      (set_lastDebounceTime (millis (at_time 12000 accepted_and_relocked))
         (at_time 12000 accepted_and_relocked)).
Proof.
  assert (H0 : buttonPressed LOW (at_time 12000 accepted_and_relocked) = false)
    by (vm_compute; reflexivity).
  assert (H1 : isDoorUnlocked (at_time 12000 accepted_and_relocked) = false)
    by (vm_compute; reflexivity).
  assert (H2 : LOW <> lastButtonState (at_time 12000 accepted_and_relocked))
    by (vm_compute; discriminate).
  split.
  - exact (proj1 (debounce_filters LOW (at_time 12000 accepted_and_relocked))
             H0).
  - exact (proj2 (debounce_filters LOW (at_time 12000 accepted_and_relocked))
             H1 H2).
Defined.

(** ** The RFID sketch: session mode *)

Lemma at_time_unlockDoor_session (T t : Z) (st : State) :
  sessionModeActive st = true ->
  sessionModeActive (at_time t (unlockDoor (at_time T st))) = true /\
  sessionStartTime (at_time t (unlockDoor (at_time T st)))
  = sessionStartTime st.
Proof.
  destruct st as [? ? ? ? ? ? ? ? session ? ? ? ? ? ? ?].
  cbn. intros ->. split; reflexivity.
Qed.

(** X5. [unlockDoor] starts session mode only when none is running: a
    credential accepted during a session leaves [sessionStartTime] as
    it is, so the session still ends [SESSION_DURATION] after its
    start; accepted without a session, it starts one at the current
    time. *)
Theorem acceptance_does_not_renew_session (T0 T1 t : Z) (st : State) :
  (sessionModeActive st = false ->
   sessionModeActive (unlockDoor st) = true /\
   sessionStartTime (unlockDoor st) = millis st) /\
  (sessionModeActive st = true ->
   sessionStartTime st = millis_at T0 ->
   T0 <= t -> t - T0 < ULONG_RANGE ->
   sessionStartTime (unlockDoor (at_time T1 st)) = sessionStartTime st /\
   sessionModeActive
     (handleSessionTimer (at_time t (unlockDoor (at_time T1 st))))
   = (t <? T0 + SESSION_DURATION)).
Proof.
  split.
  - destruct st as [? ? ? ? ? ? ? ? session ? ? ? ? ? ? ?].
    cbn. intros ->. split; reflexivity.
  - intros Ha Hs Hle Hlt.
    destruct (at_time_unlockDoor_session T1 t st Ha) as [Ha' Hs'].
    split.
    + destruct st as [? ? ? ? ? ? ? ? session ? ? ? ? ? ? ?].
      cbn in Ha. subst session. reflexivity.
    + unfold handleSessionTimer. rewrite Ha', Hs', Hs.
      replace (millis (at_time t (unlockDoor (at_time T1 st))))
        with (millis_at t)
        by (destruct st as [? ? ? ? ? ? ? ? session ? ? ? ? ? ? ?];
            destruct session; reflexivity).
      rewrite (usub_elapsed T0 t Hle Hlt). unfold SESSION_DURATION.
      destruct (Z.geb_spec (t - T0) 7200000) as [Hge | Hlt'].
      * transitivity false.
        { destruct st as [? ? ? ? ? ? ? ? session ? ? ? ? ? ? ?].
          destruct session; reflexivity. }
        symmetry. apply Z.ltb_ge. lia.
      * rewrite Ha'. symmetry. apply Z.ltb_lt. lia.
Qed.

Lemma acceptance_does_not_renew_session_witness :
  sessionStartTime (unlockDoor booted) = millis booted /\
  sessionStartTime (unlockDoor (at_time 600000 accepted_and_relocked))
  = sessionStartTime accepted_and_relocked.
Proof.
  assert (Hb : sessionModeActive booted = false)
    by (vm_compute; reflexivity).
  assert (H0 : sessionModeActive accepted_and_relocked = true)
    by (vm_compute; reflexivity).
  assert (Hs : sessionStartTime accepted_and_relocked = millis_at 1000)
    by (vm_compute; reflexivity).
  assert (H1 : 1000 <= 5000) by lia.
  assert (H2 : 5000 - 1000 < ULONG_RANGE) by reflexivity.
  split.
  - exact (proj2 (proj1 (acceptance_does_not_renew_session 0 0 0 booted) Hb)).
  - exact (proj1 (proj2 (acceptance_does_not_renew_session 1000 600000 5000
                           accepted_and_relocked) H0 Hs H1 H2)).
Defined.

(** ** The RFID sketch: status report *)

Lemma usub_range (a b : Z) : 0 <= usub a b < ULONG_RANGE.
Proof. unfold usub, wrap32. apply Z.mod_pos_bound. reflexivity. Qed.

(** X6. [printStatus] changes nothing in the state. With session mode
    on it prints one number: the minutes left of the session while the
    session has not run out, between 0 and 120; once the elapsed time
    exceeds [SESSION_DURATION] and [handleSessionTimer] has not run yet,
    the unsigned subtraction wraps and the number is 120 or more. *)
Theorem printStatus_minutes (st : State) :
  quiet (printStatus st) = quiet st /\
  (sessionModeActive st = false ->
   printed_numbers (added st (printStatus st)) = []) /\
  (sessionModeActive st = true ->
   let elapsed := usub (millis st) (sessionStartTime st) in
   exists n,
     printed_numbers (added st (printStatus st)) = [n] /\
     (elapsed <= SESSION_DURATION ->
      n = (SESSION_DURATION - elapsed) / 60000 /\ 0 <= n <= 120) /\
     (SESSION_DURATION < elapsed ->
      n = (ULONG_RANGE + SESSION_DURATION - elapsed) / 60000 /\ 120 <= n)).
Proof.
  destruct st as [sol g r ? sst ? ? ? session ? ? sl ? ? clk tr].
  split; [| split].
  - destruct session, sl, sol; exec; reflexivity.
  - intros Hs. cbn in Hs. subst session. unfold added.
    destruct sl, sol; exec; new_events; reflexivity.
  - intros Hs. cbn in Hs. subst session. unfold added. cbv zeta.
    pose proof (usub_range clk sst) as He.
    exists (usub 7200000 (usub clk sst) / 60000).
    split; [destruct sl, sol; exec; new_events; reflexivity |].
    unfold millis, clock, sessionStartTime, SESSION_DURATION.
    unfold ULONG_RANGE in *. split; intros Hc.
    + assert (Hu : usub 7200000 (usub clk sst) = 7200000 - usub clk sst).
      { unfold usub at 1. unfold wrap32, ULONG_RANGE.
        apply Z.mod_small. lia. }
      rewrite Hu. split; [reflexivity |]. split.
      * apply Z.div_pos; lia.
      * apply Z.div_le_upper_bound; lia.
    + assert (Hu : usub 7200000 (usub clk sst)
                   = 2 ^ 32 + 7200000 - usub clk sst).
      { unfold usub at 1. unfold wrap32, ULONG_RANGE.
        symmetry. apply (Z.mod_unique _ _ (-1)); lia. }
      rewrite Hu. split; [reflexivity |].
      apply Z.div_le_lower_bound; lia.
Qed.

Lemma printStatus_minutes_witness :
  printed_numbers (added booted (printStatus booted)) = [] /\
  printed_numbers (added still_unlocked (printStatus still_unlocked)) = [119].
Proof.
  assert (Hb : sessionModeActive booted = false)
    by (vm_compute; reflexivity).
  assert (H0 : sessionModeActive still_unlocked = true)
    by (vm_compute; reflexivity).
  split.
  - exact (proj1 (proj2 (printStatus_minutes booted)) Hb).
  - destruct (proj2 (proj2 (printStatus_minutes still_unlocked)) H0)
      as (n & Hn & Hin & _).
    assert (Hle : usub (millis still_unlocked)
                    (sessionStartTime still_unlocked) <= SESSION_DURATION)
      by (vm_compute; discriminate).
    destruct (Hin Hle) as [Hval _].
    rewrite Hn, Hval. vm_compute. reflexivity.
Defined.

(** ** The RFID sketch: sleep *)

Lemma checkSleep_cases (wake : Z) (st : State) :
  existsb is_sleep (added st (checkSleep wake st)) = sleepDue st /\
  (sleepDue st = false -> checkSleep wake st = st) /\
  (sleepDue st = true ->
   lastActivityTime (checkSleep wake st) = clock (checkSleep wake st) /\
   clock (checkSleep wake st) = uadd (uadd (clock st) 100) wake /\
   solenoid (checkSleep wake st) = LOW /\
   ledGreen (checkSleep wake st) = LOW /\
   ledRed (checkSleep wake st) = HIGH).
Proof.
  unfold sleepDue, checkSleep, added, isDoorUnlocked.
  destruct st as [sol g r ? ? lat ? ? ? ? ? sl ? ? clk tr].
  destruct sl, sol; exec;
    destruct (usub clk lat >? 60000); exec;
    new_events; rewrite ?skipn_length_self;
    repeat split; intros; try reflexivity; try discriminate.
Qed.

Lemma sleepDue_after_activity (st : State) :
  lastActivityTime st = clock st -> sleepDue st = false.
Proof.
  unfold sleepDue. destruct st as [? ? ? ? ? lat ? ? ? ? ? sl ? ? clk ?].
  cbn. intros ->. rewrite usub_same. destruct sl; reflexivity.
Qed.

(** X7. [checkSleep] suspends the processor exactly when sleep is
    enabled, more than [SLEEP_AFTER_TIME] has passed since the last
    activity and the door is locked; otherwise it changes nothing.
    Waking up restores the red LED, leaves the solenoid as it was and
    restarts the inactivity period, so that a second [checkSleep] at
    the same instant never sleeps. *)
Theorem checkSleep_sleeps_when_due (wake wake' : Z) (st : State) :
  existsb is_sleep (added st (checkSleep wake st)) = sleepDue st /\
  (sleepDue st = false -> checkSleep wake st = st) /\
  (sleepDue st = true ->
   lastActivityTime (checkSleep wake st) = clock (checkSleep wake st) /\
   clock (checkSleep wake st) = uadd (uadd (clock st) 100) wake /\
   solenoid (checkSleep wake st) = LOW /\
   ledGreen (checkSleep wake st) = LOW /\
   ledRed (checkSleep wake st) = HIGH) /\
  checkSleep wake' (checkSleep wake st) = checkSleep wake st.
Proof.
  destruct (checkSleep_cases wake st) as (H1 & H2 & H3).
  repeat split; try assumption; try (apply H3; assumption).
  destruct (sleepDue st) eqn:Hd.
  - destruct (H3 eq_refl) as (Hact & _).
    apply (proj1 (proj2 (checkSleep_cases wake' (checkSleep wake st)))).
    apply sleepDue_after_activity, Hact.
  - rewrite (H2 eq_refl).
    apply (proj1 (proj2 (checkSleep_cases wake' st))), Hd.
Qed.

Lemma checkSleep_sleeps_when_due_witness :
  checkSleep 0 (at_time 5000 booted) = at_time 5000 booted /\
  ledRed (checkSleep 0 (at_time 500000 booted)) = HIGH.
Proof.
  assert (H0 : sleepDue (at_time 5000 booted) = false)
    by (vm_compute; reflexivity).
  assert (H1 : sleepDue (at_time 500000 booted) = true)
    by (vm_compute; reflexivity).
  split.
  - exact (proj1 (proj2 (checkSleep_sleeps_when_due 0 0 (at_time 5000 booted)))
             H0).
  - exact (proj2 (proj2 (proj2 (proj2
             (proj1 (proj2 (proj2
                (checkSleep_sleeps_when_due 0 0 (at_time 500000 booted))))
              H1))))).
Defined.

(** ** The RFID sketch: what a card is compared on *)

(** X8. [checkRFID] looks at the first four bytes of the card only:
    two cards that agree on them, whatever their length, their other
    bytes and their type, lead to the same state (the serial dump of
    the card apart). *)
Theorem checkRFID_reads_four_bytes (u1 u2 : Uid) (st : State) :
  candidate u1 = candidate u2 ->
  quiet (checkRFID (Some u1) st) = quiet (checkRFID (Some u2) st).
Proof.
  intros Hc.
  assert (Ha : authorizedAmong (uidByte u1) authorizedUIDs
               = authorizedAmong (uidByte u2) authorizedUIDs).
  { apply eq_true_iff_eq. rewrite !authorized_iff, Hc. reflexivity. }
  unfold checkRFID. rewrite Ha.
  generalize (authorizedAmong (uidByte u2) authorizedUIDs) as ok. intros ok.
  destruct st as [sol ? ? ? ? ? ? ? session ? ? ? ? ? ? ?].
  destruct sol, ok, session; reflexivity.
Qed.

Lemma checkRFID_reads_four_bytes_witness :
  quiet (checkRFID (Some long_card) (at_time 1000 booted))
  = quiet (checkRFID (Some card1) (at_time 1000 booted)).
Proof.
  apply (checkRFID_reads_four_bytes long_card card1 (at_time 1000 booted)).
  reflexivity.
Defined.

(** ** The RFID sketch: white space on the serial port *)

Lemma serialCommand_whitespace (c : ascii) (st : State) :
  is_whitespace c = true ->
  serialCommand c st = set_lastActivityTime (millis st) st.
Proof. intros H. unfold serialCommand. rewrite H. reflexivity. Qed.

Lemma serialCommand_after_refresh (c : ascii) (st : State) :
  serialCommand c (set_lastActivityTime (millis st) st) = serialCommand c st.
Proof. destruct st. reflexivity. Qed.

(** X9. Line ends, blanks and tabs are skipped by [checkSerial]: a
    buffer of nothing else only refreshes [lastActivityTime], and white
    space in front of another character makes no difference to what
    [checkSerial] does with the rest. *)
Theorem checkSerial_skips_whitespace
    (blanks rest : list ascii) (st : State) :
  forallb is_whitespace blanks = true ->
  checkSerial blanks st
  = match blanks with
    | [] => st
    | _ :: _ => set_lastActivityTime (millis st) st
    end /\
  (rest <> [] -> checkSerial (blanks ++ rest) st = checkSerial rest st).
Proof.
  revert st. induction blanks as [| b blanks IH]; intros st Hb.
  - split; reflexivity.
  - cbn [forallb] in Hb. apply andb_prop in Hb as [Hb Hbs].
    cbn [checkSerial app]. rewrite (serialCommand_whitespace b st Hb).
    destruct (IH (set_lastActivityTime (millis st) st) Hbs) as [IH1 IH2].
    split.
    + rewrite IH1. destruct blanks; [reflexivity |].
      destruct st. reflexivity.
    + intros Hne. rewrite (IH2 Hne).
      destruct rest as [| c rest]; [now elim Hne |].
      cbn [checkSerial]. rewrite serialCommand_after_refresh. reflexivity.
Qed.

Lemma checkSerial_skips_whitespace_witness :
  checkSerial ([" "; "013"; "010"] ++ ["l"])%char still_unlocked
  = checkSerial ["l"]%char still_unlocked.
Proof.
  apply (checkSerial_skips_whitespace [" "; "013"; "010"]%char ["l"]%char
           still_unlocked).
  - reflexivity.
  - discriminate.
Defined.

(** ** The RFID sketch: the authentication flag is never cleared *)

Lemma unlockedByAuth_serialCommand (command : ascii) (st : State) :
  unlockedByAuth st = true -> unlockedByAuth (serialCommand command st) = true.
Proof.
  unfold serialCommand.
  generalize (is_whitespace command) as w.
  generalize ((command =? "u") || (command =? "U"))%char as cu.
  generalize ((command =? "l") || (command =? "L"))%char as cl.
  generalize ((command =? "s") || (command =? "S"))%char as cs.
  generalize ((command =? "m") || (command =? "M"))%char as cm.
  generalize ((command =? "z") || (command =? "Z"))%char as cz.
  intros cz cm cs cl cu w.
  destruct st as [sol ? ? ? ? ? ? ? session auth ? sl ? ? ? ?].
  cbn. intros ->. destruct sol; split_guards; reflexivity.
Qed.

Lemma unlockedByAuth_checkSerial (buffer : list ascii) (st : State) :
  unlockedByAuth st = true -> unlockedByAuth (checkSerial buffer st) = true.
Proof.
  revert st. induction buffer as [| c rest IH]; intros st H; [exact H |].
  cbn [checkSerial]. apply IH, unlockedByAuth_serialCommand, H.
Qed.

Lemma unlockedByAuth_loop (inp : Inputs) (st : State) :
  unlockedByAuth st = true -> unlockedByAuth (loop inp st) = true.
Proof.
  intros H. unfold loop, loopBeforeSleep. cbv zeta. cbn [DEBUG].
  assert (H1 : unlockedByAuth (checkRFID (card inp) (emit WdtReset st)) = true).
  { unfold checkRFID. destruct (card inp) as [u |].
    - generalize (authorizedAmong (uidByte u) authorizedUIDs) as ok. intros ok.
      destruct st as [sol ? ? ? ? ? ? ? session auth ? ? ? ? ? ?].
      cbn in H. subst auth. destruct sol; split_guards; reflexivity.
    - destruct st as [sol ? ? ? ? ? ? ? session auth ? ? ? ? ? ?].
      cbn in H. subst auth. destruct sol; reflexivity. }
  apply (unlockedByAuth_checkSerial (serial inp)) in H1.
  revert H1.
  generalize (checkSerial (serial inp) (checkRFID (card inp) (emit WdtReset st))).
  clear. intros st H.
  assert (H2 : unlockedByAuth (checkManualUnlock (button inp) st) = true).
  { unfold checkManualUnlock. generalize (button inp) as reading. intros reading.
    destruct st as [sol ? ? ? ? ? ? ? session auth ? ? lbs bs ? ?].
    cbn in H. subst auth.
    destruct sol, reading, lbs, bs; split_guards; reflexivity. }
  revert H2. generalize (checkManualUnlock (button inp) st). clear. intros st H.
  assert (H3 : unlockedByAuth (handleUnlockTimer st) = true).
  { unfold handleUnlockTimer.
    destruct st as [sol ? ? ? ? ? ? timer session auth ? ? lbs bs ? ?].
    cbn in H. subst auth. destruct timer; split_guards; reflexivity. }
  revert H3. generalize (handleUnlockTimer st). clear. intros st H.
  assert (H4 : unlockedByAuth (handleSessionTimer st) = true).
  { unfold handleSessionTimer.
    destruct st as [sol ? ? ? ? ? ? timer session auth ? ? lbs bs ? ?].
    cbn in H. subst auth. destruct session; split_guards; reflexivity. }
  revert H4. generalize (handleSessionTimer st). clear. intros st H.
  unfold checkSleep.
  destruct st as [sol ? ? ? ? ? ? timer session auth ? sl lbs bs ? ?].
  cbn in H. subst auth. destruct sl, sol; split_guards; reflexivity.
Qed.

(** X10. Once [unlockedByAuth] is set, no pass of [loop] clears it,
    whatever the inputs: the flag stays set in every later state until
    power-off. *)
Theorem unlockedByAuth_is_never_cleared
    (passes : list (Z * Inputs)) (st : State) :
  unlockedByAuth st = true -> unlockedByAuth (run passes st) = true.
Proof.
  revert st. induction passes as [| [t inp] rest IH]; intros st H; [exact H |].
  cbn [run]. apply IH, unlockedByAuth_loop. destruct st. exact H.
Qed.

Lemma unlockedByAuth_is_never_cleared_witness :
  unlockedByAuth
    (run [(20000000, mkInputs None ["l"; "m"; "z"]%char LOW 5)]
       accepted_and_relocked) = true.
Proof.
  assert (H0 : unlockedByAuth accepted_and_relocked = true)
    by (vm_compute; reflexivity).
  exact (unlockedByAuth_is_never_cleared
           [(20000000, mkInputs None ["l"; "m"; "z"]%char LOW 5)]
           accepted_and_relocked H0).
Defined.

(** ** lock_v1: an unlocked door has a running timer *)

Ltac split_guards_v1 :=
  repeat (lazy -[uadd usub millis_at wrap32 Z.geb Z.gtb Z.leb Z.ltb Z.div
                 Z.add Z.sub Z.modulo app skipn List.length existsb
                 event_eqb_write is_sleep];
          match goal with
          | |- context [if ?b then _ else _] => is_var b; destruct b
          | |- context [match ?l with LOW => _ | HIGH => _ end] =>
              is_var l; destruct l
          | |- context [Z.geb ?a ?b] => destruct (Z.geb a b)
          end).

Ltac v1_timed_cases sol timer :=
  unfold LockV1.isDoorUnlocked; intros H; exec_in H;
  destruct sol, timer; try discriminate H; clear H.

Lemma v1_timed_reportButton (r : Level) (st : LockV1.State) :
  implb (LockV1.isDoorUnlocked st) (LockV1.unlockTimerActive st) = true ->
  implb (LockV1.isDoorUnlocked (LockV1.reportButton r st))
        (LockV1.unlockTimerActive (LockV1.reportButton r st)) = true.
Proof.
  unfold LockV1.reportButton.
  destruct st as [sol ust timer auth manual clk tr].
  v1_timed_cases sol timer; destruct r; reflexivity.
Qed.

Lemma v1_timed_checkUnlockTimer (st : LockV1.State) :
  implb (LockV1.isDoorUnlocked st) (LockV1.unlockTimerActive st) = true ->
  implb (LockV1.isDoorUnlocked (LockV1.checkUnlockTimer st))
        (LockV1.unlockTimerActive (LockV1.checkUnlockTimer st)) = true.
Proof.
  unfold LockV1.checkUnlockTimer.
  destruct st as [sol ust timer auth manual clk tr].
  v1_timed_cases sol timer; split_guards_v1; reflexivity.
Qed.

Lemma v1_timed_serialCommand (c : ascii) (st : LockV1.State) :
  implb (LockV1.isDoorUnlocked st) (LockV1.unlockTimerActive st) = true ->
  implb (LockV1.isDoorUnlocked (LockV1.serialCommand c st))
        (LockV1.unlockTimerActive (LockV1.serialCommand c st)) = true.
Proof.
  unfold LockV1.serialCommand.
  generalize ((c =? "u") || (c =? "U"))%char as cu.
  generalize ((c =? "l") || (c =? "L"))%char as cl.
  generalize ((c =? "s") || (c =? "S"))%char as cs.
  intros cs cl cu.
  destruct st as [sol ust timer auth manual clk tr].
  v1_timed_cases sol timer; destruct cu, cl, cs; reflexivity.
Qed.

Lemma v1_timed_manualButton (r : Level) (st : LockV1.State) :
  implb (LockV1.isDoorUnlocked st) (LockV1.unlockTimerActive st) = true ->
  implb (LockV1.isDoorUnlocked (LockV1.manualButton r st))
        (LockV1.unlockTimerActive (LockV1.manualButton r st)) = true.
Proof.
  unfold LockV1.manualButton.
  destruct st as [sol ust timer auth manual clk tr].
  v1_timed_cases sol timer; destruct r, auth, manual; reflexivity.
Qed.

Lemma v1_timed_loop (r1 r2 : Level) (c : option ascii) (st : LockV1.State) :
  implb (LockV1.isDoorUnlocked st) (LockV1.unlockTimerActive st) = true ->
  implb (LockV1.isDoorUnlocked (LockV1.loop r1 c r2 st))
        (LockV1.unlockTimerActive (LockV1.loop r1 c r2 st)) = true.
Proof.
  intros H. unfold LockV1.loop. cbv zeta.
  apply v1_timed_manualButton.
  destruct c as [c |]; [apply v1_timed_serialCommand |];
    apply v1_timed_checkUnlockTimer, v1_timed_reportButton, H.
Qed.

(** X11. lock_v1: in every state that passes of [loop] reach from the
    booted sketch, whatever the button levels, the serial characters
    and the times of the passes, an energised solenoid comes with an
    active unlock timer: the door is never left unlocked without a
    pending re-lock. *)
Theorem v1_unlocked_has_timer
    (passes : list (Z * (Level * option ascii * Level))) :
  implb (LockV1.isDoorUnlocked (run_v1 passes booted_v1))
        (LockV1.unlockTimerActive (run_v1 passes booted_v1)) = true.
Proof.
  assert (Hgen : forall st,
             implb (LockV1.isDoorUnlocked st) (LockV1.unlockTimerActive st)
             = true ->
             implb (LockV1.isDoorUnlocked (run_v1 passes st))
                   (LockV1.unlockTimerActive (run_v1 passes st)) = true).
  { induction passes as [| [t [[r1 c] r2]] rest IH]; intros st H; [exact H |].
    cbn [run_v1]. apply IH, v1_timed_loop. destruct st. exact H. }
  apply Hgen. reflexivity.
Qed.

(** ** lock_v1: the manual override is one-shot *)

Lemma never_energised_v1_app (a b : list Event) :
  never_energised_v1 (a ++ b) = never_energised_v1 a && never_energised_v1 b.
Proof.
  unfold never_energised_v1. rewrite existsb_app. apply negb_orb.
Qed.

Lemma disarmed_refl (st : LockV1.State) :
  override_armed st = false -> disarmed_step st st.
Proof.
  intros H. split; [exact H |]. exists []. rewrite app_nil_r.
  split; reflexivity.
Qed.

Lemma disarmed_trans (a b c : LockV1.State) :
  disarmed_step a b -> disarmed_step b c -> disarmed_step a c.
Proof.
  intros (_ & e1 & Ht1 & Hn1) (Hu & e2 & Ht2 & Hn2).
  split; [exact Hu |]. exists (e1 ++ e2). split.
  - rewrite Ht2, Ht1. apply eq_sym, app_assoc.
  - rewrite never_energised_v1_app, Hn1, Hn2. reflexivity.
Qed.

Ltac disarmed_cases auth manual :=
  unfold disarmed_step, override_armed; intros Ha; exec_in Ha;
  destruct auth, manual; try discriminate Ha; clear Ha.

Lemma disarmed_reportButton (r : Level) (st : LockV1.State) :
  override_armed st = false -> disarmed_step st (LockV1.reportButton r st).
Proof.
  unfold LockV1.reportButton.
  destruct st as [sol ust timer auth manual clk tr].
  disarmed_cases auth manual; destruct r; exec;
    (split; [reflexivity | close_trace]).
Qed.

Lemma disarmed_checkUnlockTimer (st : LockV1.State) :
  override_armed st = false -> disarmed_step st (LockV1.checkUnlockTimer st).
Proof.
  unfold LockV1.checkUnlockTimer.
  destruct st as [sol ust timer auth manual clk tr].
  disarmed_cases auth manual; destruct timer; split_guards_v1;
    (split; [reflexivity | close_trace]).
Qed.

Lemma disarmed_serialCommand (c : ascii) (st : LockV1.State) :
  ((c =? "u") || (c =? "U"))%char = false ->
  override_armed st = false -> disarmed_step st (LockV1.serialCommand c st).
Proof.
  unfold LockV1.serialCommand. intros ->.
  generalize ((c =? "l") || (c =? "L"))%char as cl.
  generalize ((c =? "s") || (c =? "S"))%char as cs.
  intros cs cl.
  destruct st as [sol ust timer auth manual clk tr].
  disarmed_cases auth manual; destruct cl, cs, sol; exec;
    (split; [reflexivity | close_trace]).
Qed.

Lemma disarmed_manualButton (r : Level) (st : LockV1.State) :
  override_armed st = false -> disarmed_step st (LockV1.manualButton r st).
Proof.
  unfold LockV1.manualButton.
  destruct st as [sol ust timer auth manual clk tr].
  disarmed_cases auth manual; destruct r; exec;
    (split; [reflexivity | close_trace]).
Qed.

Lemma disarmed_loop (r1 r2 : Level) (c : option ascii) (st : LockV1.State) :
  override_armed st = false ->
  match c with
  | Some ch => ((ch =? "u") || (ch =? "U"))%char = false
  | None => True
  end ->
  disarmed_step st (LockV1.loop r1 c r2 st).
Proof.
  intros Ha Hc. unfold LockV1.loop. cbv zeta.
  pose proof (disarmed_reportButton r1 st Ha) as S1.
  pose proof (disarmed_checkUnlockTimer _ (proj1 S1)) as S2.
  assert (S3 : disarmed_step
                 (LockV1.checkUnlockTimer (LockV1.reportButton r1 st))
                 match c with
                 | Some ch =>
                     LockV1.serialCommand ch
                       (LockV1.checkUnlockTimer (LockV1.reportButton r1 st))
                 | None => LockV1.checkUnlockTimer (LockV1.reportButton r1 st)
                 end).
  { destruct c as [ch |].
    - apply disarmed_serialCommand; [exact Hc | exact (proj1 S2)].
    - apply disarmed_refl, (proj1 S2). }
  pose proof (disarmed_manualButton r2 _ (proj1 S3)) as S4.
  exact (disarmed_trans _ _ _ S1
           (disarmed_trans _ _ _ S2 (disarmed_trans _ _ _ S3 S4))).
Qed.

Lemma disarmed_run
    (passes : list (Z * (Level * option ascii * Level)))
    (st : LockV1.State) :
  override_armed st = false ->
  forallb no_unlock_command passes = true ->
  disarmed_step st (run_v1 passes st).
Proof.
  revert st. induction passes as [| [t [[r1 c] r2]] rest IH]; intros st Ha Hp.
  - apply disarmed_refl, Ha.
  - cbn [forallb] in Hp. apply andb_prop in Hp as [Hc Hrest].
    cbn [run_v1].
    assert (S0 : disarmed_step st (LockV1.at_time t st)).
    { destruct st. split; [exact Ha |]. exists []. cbn.
      rewrite app_nil_r. split; reflexivity. }
    assert (Hc' : match c with
                  | Some ch => ((ch =? "u") || (ch =? "U"))%char = false
                  | None => True
                  end).
    { destruct c as [ch |]; [| exact I].
      cbn in Hc. apply negb_true_iff in Hc. exact Hc. }
    pose proof (disarmed_loop r1 r2 c _ (proj1 S0) Hc') as S1.
    pose proof (IH _ (proj1 S1) Hrest) as S2.
    exact (disarmed_trans _ _ _ S0 (disarmed_trans _ _ _ S1 S2)).
Qed.

(** X12. lock_v1: the manual override works once per unlock command.
    A pressed button with the override armed spends it; and from any
    state in which the override is not armed (after power-on, or after
    it has been used), passes without the serial command [u] never
    energise the solenoid, whatever the button does. *)
Theorem v1_override_is_one_shot
    (passes : list (Z * (Level * option ascii * Level)))
    (st : LockV1.State) :
  (override_armed st = true ->
   energised_v1 st (LockV1.manualButton LOW st) = true /\
   override_armed (LockV1.manualButton LOW st) = false) /\
  (override_armed st = false ->
   forallb no_unlock_command passes = true ->
   energised_v1 st (run_v1 passes st) = false /\
   override_armed (run_v1 passes st) = false).
Proof.
  split.
  - unfold override_armed, LockV1.manualButton, energised_v1.
    destruct st as [sol ust timer auth manual clk tr].
    intros Ha. exec_in Ha. destruct auth, manual; try discriminate Ha.
    exec. new_events. split; reflexivity.
  - intros Ha Hp.
    destruct (disarmed_run passes st Ha Hp) as (Ha' & evs & Ht & Hn).
    split; [| exact Ha'].
    unfold energised_v1. rewrite Ht, skipn_length_app.
    unfold never_energised_v1 in Hn. apply negb_true_iff in Hn. exact Hn.
Qed.

Lemma v1_override_is_one_shot_witness :
  override_armed (LockV1.manualButton LOW v1_unlocked) = false /\
  energised_v1 booted_v1
    (run_v1 [(1000, (LOW, Some "l"%char, LOW)); (5000, (LOW, None, LOW))]
       booted_v1) = false.
Proof.
  assert (H0 : override_armed v1_unlocked = true)
    by (vm_compute; reflexivity).
  assert (H1 : override_armed booted_v1 = false)
    by (vm_compute; reflexivity).
  split.
  - exact (proj2 (proj1 (v1_override_is_one_shot [] v1_unlocked) H0)).
  - exact (proj1 (proj2 (v1_override_is_one_shot
                           [(1000, (LOW, Some "l"%char, LOW));
                            (5000, (LOW, None, LOW))] booted_v1)
                    H1 (eq_refl true))).
Defined.

(** ** lock_v1: the door locks itself again *)

(** X13. lock_v1: a pass of [loop] that finds the unlock timer expired
    when it tests it, and no command [u] on the serial port, ends with
    the solenoid released and the timer inactive, whatever the
    button levels are. *)
Theorem v1_expired_timer_relocks
    (r1 r2 : Level) (c : option ascii) (st : LockV1.State) :
  LockV1.unlockTimerExpired (LockV1.reportButton r1 st) = true ->
  no_unlock_command (0, (r1, c, r2)) = true ->
  LockV1.isDoorUnlocked (LockV1.loop r1 c r2 st) = false /\
  LockV1.unlockTimerActive (LockV1.loop r1 c r2 st) = false.
Proof.
  unfold LockV1.loop, LockV1.unlockTimerExpired, LockV1.checkUnlockTimer,
    LockV1.manualButton, LockV1.isDoorUnlocked, no_unlock_command.
  intros He.
  apply andb_prop in He as [Hact Hge]. rewrite Hact, Hge.
  generalize (LockV1.reportButton r1 st). clear. intros st.
  destruct c as [c |].
  - intros Hc. apply negb_true_iff in Hc.
    unfold LockV1.serialCommand. rewrite Hc.
    generalize ((c =? "l") || (c =? "L"))%char as cl.
    generalize ((c =? "s") || (c =? "S"))%char as cs.
    intros cs cl.
    destruct st as [sol ust timer auth manual clk tr].
    destruct r2, cl, cs, auth, manual, sol; split; reflexivity.
  - intros _.
    destruct st as [sol ust timer auth manual clk tr].
    destruct r2, auth, manual; split; reflexivity.
Qed.

Lemma v1_expired_timer_relocks_witness :
  LockV1.isDoorUnlocked
    (LockV1.loop HIGH None LOW (LockV1.at_time 4000 v1_unlocked)) = false.
Proof.
  assert (H0 : LockV1.unlockTimerExpired
                 (LockV1.reportButton HIGH (LockV1.at_time 4000 v1_unlocked))
               = true)
    by (vm_compute; reflexivity).
  exact (proj1 (v1_expired_timer_relocks HIGH LOW None
                  (LockV1.at_time 4000 v1_unlocked) H0 (eq_refl true))).
Defined.

(** ** The RFID sketch: the door stays open for the whole hold *)

Lemma handleSessionTimer_keeps_start (st : State) :
  unlockStartTime (handleSessionTimer st) = unlockStartTime st.
Proof.
  unfold handleSessionTimer.
  destruct st as [? ? ? ? ? ? ? ? session ? ? ? ? ? ? ?].
  destruct session; split_guards; reflexivity.
Qed.

Lemma checkSleep_keeps_start (wake : Z) (st : State) :
  unlockStartTime (checkSleep wake st) = unlockStartTime st.
Proof.
  unfold checkSleep.
  destruct st as [sol ? ? ? ? ? ? ? ? ? ? sl ? ? ? ?].
  destruct sl, sol; split_guards; reflexivity.
Qed.

(** X14. While the unlock timer armed at real time [T] has not run
    out, a pass of [loop] with nothing on the serial port leaves the
    door unlocked and the timer as it is: no card, no button level and
    no inactivity ends the unlock early. *)
Theorem unlocked_until_timeout (T t : Z) (inp : Inputs) (st : State) :
  serial inp = [] ->
  isDoorUnlocked st = true ->
  unlockTimerActive st = true ->
  unlockStartTime st = millis_at T ->
  T <= t -> t < T + UNLOCK_TIME ->
  isDoorUnlocked (loop inp (at_time t st)) = true /\
  unlockTimerActive (loop inp (at_time t st)) = true /\
  unlockStartTime (loop inp (at_time t st)) = millis_at T.
Proof.
  intros Hs Hu Ha Hst Hle Hlt.
  assert (Hel : usub (millis_at t) (millis_at T) = t - T).
  { apply usub_elapsed; [exact Hle |]. unfold UNLOCK_TIME, ULONG_RANGE in *.
    lia. }
  assert (Hno : (t - T >=? UNLOCK_TIME) = false).
  { rewrite Z.geb_leb. apply Z.leb_gt. lia. }
  assert (Hpass : loopBeforeSleep inp (at_time t st)
                  = handleSessionTimer (emit WdtReset (at_time t st))).
  { unfold loopBeforeSleep. rewrite Hs. cbv zeta. cbn [checkSerial DEBUG].
    assert (Hu1 : isDoorUnlocked (emit WdtReset (at_time t st)) = true)
      by (destruct st; exact Hu).
    unfold checkRFID. rewrite Hu1.
    unfold checkManualUnlock. rewrite Hu1.
    unfold handleUnlockTimer.
    replace (unlockTimerActive (emit WdtReset (at_time t st))) with true
      by (destruct st; symmetry; exact Ha).
    replace (usub (millis (emit WdtReset (at_time t st)))
                  (unlockStartTime (emit WdtReset (at_time t st))))
      with (t - T)
      by (destruct st; cbn in Hst; subst; symmetry; exact Hel).
    rewrite Hno. reflexivity. }
  unfold loop. rewrite Hpass.
  rewrite (proj1 (checkSleep_keeps_lock _ _)), (proj2 (checkSleep_keeps_lock _ _)).
  rewrite (proj1 (handleSessionTimer_keeps_lock _)),
    (proj2 (handleSessionTimer_keeps_lock _)).
  rewrite checkSleep_keeps_start, handleSessionTimer_keeps_start.
  clear Hpass Hel Hno Hle Hlt Hs.
  destruct st. cbn in Hu, Ha, Hst. subst.
  split; [exact Hu | split; reflexivity].
Qed.

Lemma unlocked_until_timeout_witness :
  isDoorUnlocked (loop (scan stranger) (at_time 9000 still_unlocked)) = true.
Proof.
  assert (H1 : isDoorUnlocked still_unlocked = true)
    by (vm_compute; reflexivity).
  assert (H2 : unlockTimerActive still_unlocked = true)
    by (vm_compute; reflexivity).
  assert (H3 : unlockStartTime still_unlocked = millis_at 1000)
    by (vm_compute; reflexivity).
  assert (H4 : 1000 <= 9000) by lia.
  assert (H5 : 9000 < 1000 + UNLOCK_TIME) by reflexivity.
  exact (proj1 (unlocked_until_timeout 1000 9000 (scan stranger)
                  still_unlocked (eq_refl []) H1 H2 H3 H4 H5)).
Defined.

(** ** The OLED sketch *)

Ltac split_guards_oled :=
  repeat (lazy -[uadd usub millis_at wrap32 Z.geb Z.gtb Z.leb Z.ltb Z.div
                 Z.add Z.sub Z.modulo app skipn List.length existsb filter];
          match goal with
          | |- context [if ?b then _ else _] => is_var b; destruct b
          | |- context [match ?l with LOW => _ | HIGH => _ end] =>
              is_var l; destruct l
          | |- context [Z.geb ?a ?b] => destruct (Z.geb a b)
          end).

Ltac exec_oled :=
  lazy -[uadd usub millis_at wrap32 Z.geb Z.gtb Z.leb Z.ltb Z.div
         Z.add Z.sub Z.modulo app skipn List.length existsb filter].

Lemma oled_authorized_iff (u : Uid) :
  OledLock.authorized u = true <-> In (candidate u) OledLock.authorizedUIDs.
Proof.
  unfold OledLock.authorized. apply authorizedAmong_In.
  repeat constructor.
Qed.

(** X15. The OLED sketch: a card scanned while the door is locked
    unlocks it exactly when its first four bytes are an entry of the
    table; then the timer is armed at the current time and the screen
    shows the grant. A card that matches no entry gets no screen and no
    delay: nothing changes but [lastActivityTime]. *)
Theorem oled_checkRFID_unlocks_only_on_match (u : Uid) (st : OledLock.State) :
  OledLock.isDoorUnlocked st = false ->
  (OledLock.isDoorUnlocked (OledLock.checkRFID (Some u) st) = true <->
   In (candidate u) OledLock.authorizedUIDs) /\
  (In (candidate u) OledLock.authorizedUIDs ->
   OledLock.unlockTimerActive (OledLock.checkRFID (Some u) st) = true /\
   OledLock.unlockStartTime (OledLock.checkRFID (Some u) st)
   = OledLock.millis st /\
   OledLock.screens (OledLock.added st (OledLock.checkRFID (Some u) st))
   = [OledLock.DrawMessage "Access granted!" "Drawer unlocked."]) /\
  (~ In (candidate u) OledLock.authorizedUIDs ->
   OledLock.quiet (OledLock.checkRFID (Some u) st)
   = OledLock.quiet (OledLock.set_lastActivityTime (OledLock.millis st) st) /\
   OledLock.screens (OledLock.added st (OledLock.checkRFID (Some u) st)) = []).
Proof.
  rewrite <- (oled_authorized_iff u).
  unfold OledLock.checkRFID, OledLock.isDoorUnlocked, OledLock.added.
  destruct (OledLock.authorized u);
    destruct st as [sol ? ? ? ? ? ? ? ? ? ? ? ? ? ? tr];
    intros Hl; exec_in Hl; destruct sol; try discriminate Hl;
    exec_oled; rewrite <- ?app_assoc, ?skipn_length_app;
    repeat split; intros; try reflexivity; try discriminate;
    try (now elim H).
Qed.

Lemma oled_checkRFID_unlocks_only_on_match_witness :
  OledLock.isDoorUnlocked
    (OledLock.checkRFID (Some card1) OledLock.booted) = true.
Proof.
  assert (H0 : OledLock.isDoorUnlocked OledLock.booted = false)
    by (vm_compute; reflexivity).
  apply (proj1 (oled_checkRFID_unlocks_only_on_match card1 OledLock.booted H0)).
  simpl. auto.
Defined.

(** *** Lock and timer *)

Ltac oled_timed_cases sol timer :=
  intros H; exec_in H; destruct sol, timer; try discriminate H; clear H.

Lemma oled_timed_checkRFID (c : option Uid) (st : OledLock.State) :
  Bool.eqb (OledLock.isDoorUnlocked st) (OledLock.unlockTimerActive st) = true ->
  Bool.eqb (OledLock.isDoorUnlocked (OledLock.checkRFID c st))
           (OledLock.unlockTimerActive (OledLock.checkRFID c st)) = true.
Proof.
  unfold OledLock.checkRFID.
  destruct c as [u |].
  - generalize (OledLock.authorized u) as ok. intros ok.
    destruct st as [sol ? ? ? ? ? ? ? timer ? ? ? ? ? ? tr].
    oled_timed_cases sol timer; destruct ok; reflexivity.
  - intros H. destruct (OledLock.isDoorUnlocked st) eqn:E;
      cbv iota; rewrite E; exact H.
Qed.

Lemma oled_timed_handleUnlockTimer (st : OledLock.State) :
  Bool.eqb (OledLock.isDoorUnlocked st) (OledLock.unlockTimerActive st) = true ->
  Bool.eqb (OledLock.isDoorUnlocked (OledLock.handleUnlockTimer st))
           (OledLock.unlockTimerActive (OledLock.handleUnlockTimer st)) = true.
Proof.
  unfold OledLock.handleUnlockTimer.
  destruct st as [sol ? ? ? ? ? ? ? timer ? ? ? ? ? ? tr].
  oled_timed_cases sol timer; split_guards_oled; reflexivity.
Qed.

Lemma oled_timed_display (now : Z) (st : OledLock.State) :
  Bool.eqb (OledLock.isDoorUnlocked st) (OledLock.unlockTimerActive st) = true ->
  Bool.eqb
    (OledLock.isDoorUnlocked
       (OledLock.updateDisplay (OledLock.set_lastDisplayUpdate now st)))
    (OledLock.unlockTimerActive
       (OledLock.updateDisplay (OledLock.set_lastDisplayUpdate now st)))
  = true.
Proof.
  unfold OledLock.updateDisplay.
  destruct st as [sol ? ? ? ? ? ? ? timer ? ? ? tmp sts ? tr].
  oled_timed_cases sol timer; destruct tmp, sts; split_guards_oled;
    reflexivity.
Qed.

Lemma oled_timed_loop (c : option Uid) (s : list ascii) (st : OledLock.State) :
  Bool.eqb (OledLock.isDoorUnlocked st) (OledLock.unlockTimerActive st) = true ->
  Bool.eqb (OledLock.isDoorUnlocked (OledLock.loop c s st))
           (OledLock.unlockTimerActive (OledLock.loop c s st)) = true.
Proof.
  intros H. unfold OledLock.loop. cbv zeta. cbn [OledLock.DEBUG].
  match goal with
  | |- context [OledLock.checkRFID c ?s0] =>
      assert (H0 : Bool.eqb (OledLock.isDoorUnlocked s0)
                            (OledLock.unlockTimerActive s0) = true)
  end.
  { destruct (usub (OledLock.millis st) (OledLock.lastWatchdogReset st)
                >=? OledLock.WATCHDOG_PERIOD / 2);
      destruct st; exact H. }
  apply (oled_timed_checkRFID c) in H0.
  apply oled_timed_handleUnlockTimer in H0.
  match goal with
  | |- context [if ?g then _ else _] => destruct g
  end; [apply oled_timed_display |]; exact H0.
Qed.

(** X16. The OLED sketch: in every state that passes of [loop] reach
    from the booted sketch, whatever the cards, the serial input and
    the times of the passes, the door is unlocked exactly when the
    unlock timer is active. *)
Theorem oled_reachable_unlocked_iff_timer
    (passes : list (Z * (option Uid * list ascii))) :
  Bool.eqb
    (OledLock.isDoorUnlocked (OledLock.run passes OledLock.booted))
    (OledLock.unlockTimerActive (OledLock.run passes OledLock.booted))
  = true.
Proof.
  assert (Hgen : forall st,
             Bool.eqb (OledLock.isDoorUnlocked st)
                      (OledLock.unlockTimerActive st) = true ->
             Bool.eqb (OledLock.isDoorUnlocked (OledLock.run passes st))
                      (OledLock.unlockTimerActive (OledLock.run passes st))
             = true).
  { induction passes as [| [t [c s]] rest IH]; intros st H; [exact H |].
    cbn [OledLock.run]. apply IH, oled_timed_loop. destruct st. exact H. }
  apply Hgen. reflexivity.
Qed.

(** *** Watchdog and pass time *)

Ltac close_trace_oled :=
  first
    [ exists []; split; [symmetry; apply app_nil_r | reflexivity]
    | eexists; split; [rewrite <- ?app_assoc; reflexivity | reflexivity] ].

Lemma instant_refl (st : OledLock.State) : instant_step st st.
Proof.
  repeat split. exists []. rewrite app_nil_r. split; reflexivity.
Qed.

Lemma instant_trans (a b c : OledLock.State) :
  instant_step a b -> instant_step b c -> instant_step a c.
Proof.
  intros (Hc1 & Hw1 & e1 & Ht1 & Hn1) (Hc2 & Hw2 & e2 & Ht2 & Hn2).
  split; [congruence |]. split; [congruence |].
  exists (e1 ++ e2). split.
  - rewrite Ht2, Ht1. apply eq_sym, app_assoc.
  - unfold OledLock.resets_watchdog in *.
    rewrite existsb_app, Hn1, Hn2. reflexivity.
Qed.

Lemma instant_checkRFID (c : option Uid) (st : OledLock.State) :
  instant_step st (OledLock.checkRFID c st).
Proof.
  unfold OledLock.checkRFID.
  destruct (OledLock.isDoorUnlocked st); [apply instant_refl |].
  destruct c as [u |]; [| apply instant_refl].
  generalize (OledLock.authorized u) as ok. intros ok.
  unfold instant_step. destruct st. destruct ok; exec_oled;
    (split; [reflexivity | split; [reflexivity | close_trace_oled]]).
Qed.

Lemma instant_handleUnlockTimer (st : OledLock.State) :
  instant_step st (OledLock.handleUnlockTimer st).
Proof.
  unfold OledLock.handleUnlockTimer.
  destruct (OledLock.unlockTimerActive st); [| apply instant_refl].
  destruct (usub (OledLock.millis st) (OledLock.unlockStartTime st)
            >=? OledLock.UNLOCK_TIME); [| apply instant_refl].
  unfold instant_step. destruct st. exec_oled.
  split; [reflexivity | split; [reflexivity | close_trace_oled]].
Qed.

Lemma instant_display (now : Z) (st : OledLock.State) :
  instant_step st
    (OledLock.updateDisplay (OledLock.set_lastDisplayUpdate now st)).
Proof.
  unfold OledLock.updateDisplay, instant_step.
  destruct st as [sol ? ? ? ? ? ? ? ? ? ? ? tmp sts ? tr].
  destruct tmp, sts; split_guards_oled;
    (split; [reflexivity | split; [reflexivity | close_trace_oled]]).
Qed.

Lemma oled_loop_tail (c : option Uid) (now : Z) (st : OledLock.State) :
  instant_step st
    (let st1 := OledLock.handleUnlockTimer (OledLock.checkRFID c st) in
     if usub now (OledLock.lastDisplayUpdate st1)
        >=? OledLock.DISPLAY_UPDATE_RATE
     then OledLock.updateDisplay (OledLock.set_lastDisplayUpdate now st1)
     else st1).
Proof.
  cbv zeta.
  pose proof (instant_checkRFID c st) as S1.
  pose proof (instant_handleUnlockTimer (OledLock.checkRFID c st)) as S2.
  pose proof (instant_trans _ _ _ S1 S2) as S12.
  match goal with
  | |- context [if ?g then _ else _] => destruct g
  end; [| exact S12].
  exact (instant_trans _ _ _ S12 (instant_display now _)).
Qed.

(** X17. The OLED sketch: a pass of [loop] takes no time (with
    [DEBUG] off it contains no delay) and ignores what is on the serial
    port. It resets the watchdog exactly when at least half the
    watchdog period has passed since the last reset, and then records
    the time of the reset. *)
Theorem oled_pass_is_instant
    (c : option Uid) (s : list ascii) (st : OledLock.State) :
  let due := usub (OledLock.millis st) (OledLock.lastWatchdogReset st)
             >=? 4000 in
  OledLock.clock (OledLock.loop c s st) = OledLock.clock st /\
  OledLock.resets_watchdog (OledLock.added st (OledLock.loop c s st)) = due /\
  OledLock.lastWatchdogReset (OledLock.loop c s st)
  = (if due then OledLock.millis st else OledLock.lastWatchdogReset st) /\
  OledLock.loop c s st = OledLock.loop c [] st.
Proof.
  cbv zeta. split; [| split; [| split; [| reflexivity]]];
    unfold OledLock.loop; cbv zeta; cbn [OledLock.DEBUG];
    change (OledLock.WATCHDOG_PERIOD / 2) with 4000;
    destruct (usub (OledLock.millis st) (OledLock.lastWatchdogReset st)
              >=? 4000);
    match goal with
    | |- context [OledLock.checkRFID c ?s0] =>
        destruct (oled_loop_tail c (OledLock.millis st) s0)
          as (Hc & Hw & evs & Ht & Hn)
    end; cbv zeta in Hc, Hw, Ht.
  - rewrite Hc. destruct st. reflexivity.
  - exact Hc.
  - unfold OledLock.added. rewrite Ht. destruct st. cbn.
    rewrite <- app_assoc, skipn_length_app. reflexivity.
  - unfold OledLock.added. rewrite Ht, skipn_length_app. exact Hn.
  - rewrite Hw. destruct st. reflexivity.
  - exact Hw.
Qed.

(** *** Screens *)

(** X18. The OLED sketch: a message shown at real time [T] stays for
    [TEMP_MESSAGE_DURATION]; the first [updateDisplay] after that draws
    the status screen, the first one [STATUS_DISPLAY_DURATION] later
    draws the intro screen, and from then on [updateDisplay] draws
    nothing. *)
Theorem oled_message_then_status_then_intro
    (T t0 t1 t2 t3 : Z) (line1 line2 : string) (st : OledLock.State) :
  let shown :=
    OledLock.showTemporaryMessage line1 line2 (OledLock.at_time T st) in
  let status := OledLock.updateDisplay (OledLock.at_time t1 shown) in
  let intro := OledLock.updateDisplay (OledLock.at_time t2 status) in
  T <= t0 -> t0 < T + 3000 ->
  T + 3000 <= t1 -> t1 - T < ULONG_RANGE ->
  t1 + 10000 <= t2 -> t2 - t1 < ULONG_RANGE ->
  OledLock.updateDisplay (OledLock.at_time t0 shown)
  = OledLock.at_time t0 shown /\
  OledLock.screens (OledLock.added st intro)
  = [OledLock.DrawMessage line1 line2;
     OledLock.DrawStatus (OledLock.isDoorUnlocked st);
     OledLock.DrawIntro (negb (OledLock.isDoorUnlocked st))] /\
  OledLock.temporaryMessageActive intro = false /\
  OledLock.statusScreenActive intro = false /\
  OledLock.updateDisplay (OledLock.at_time t3 intro)
  = OledLock.at_time t3 intro.
Proof.
  cbv zeta. intros H0 H0' H1 H1' H2 H2'.
  assert (E0 : (usub (millis_at t0) (millis_at T) >=? 3000) = false).
  { rewrite usub_elapsed by (unfold ULONG_RANGE; lia).
    rewrite Z.geb_leb. apply Z.leb_gt. lia. }
  assert (E1 : (usub (millis_at t1) (millis_at T) >=? 3000) = true).
  { rewrite usub_elapsed by lia. rewrite Z.geb_leb. apply Z.leb_le. lia. }
  assert (E2 : (usub (millis_at t2) (millis_at t1) >=? 10000) = true).
  { rewrite usub_elapsed by lia. rewrite Z.geb_leb. apply Z.leb_le. lia. }
  unfold OledLock.added.
  destruct st as [sol ? ? ? ? ? ? ? ? ? ? ? tmp sts ? tr].
  exec_oled. rewrite E0, E1. exec_oled. rewrite E2. exec_oled.
  rewrite <- ?app_assoc, ?skipn_length_app.
  destruct sol; repeat split; reflexivity.
Qed.

Lemma oled_message_then_status_then_intro_witness :
  OledLock.statusScreenActive
    (OledLock.updateDisplay
       (OledLock.at_time 20000
          (OledLock.updateDisplay
             (OledLock.at_time 5000
                (OledLock.showTemporaryMessage "Access granted!"
                   "Drawer unlocked."
                   (OledLock.at_time 1000 OledLock.booted)))))) = false.
Proof.
  assert (H0 : 1000 <= 2000) by lia.
  assert (H0' : 2000 < 1000 + 3000) by lia.
  assert (H1 : 1000 + 3000 <= 5000) by lia.
  assert (H1' : 5000 - 1000 < ULONG_RANGE) by reflexivity.
  assert (H2 : 5000 + 10000 <= 20000) by lia.
  assert (H2' : 20000 - 5000 < ULONG_RANGE) by reflexivity.
  exact (proj1 (proj2 (proj2 (proj2
           (oled_message_then_status_then_intro 1000 2000 5000 20000 0
              "Access granted!" "Drawer unlocked." OledLock.booted
              H0 H0' H1 H1' H2 H2'))))).
Defined.

(** *** Timed re-lock *)

Lemma oled_relock_tail (c : option Uid) (now : Z) (st : OledLock.State) :
  OledLock.isDoorUnlocked st = true ->
  oled_timer_expired st = true ->
  let st1 := OledLock.handleUnlockTimer (OledLock.checkRFID c st) in
  let st2 :=
    if usub now (OledLock.lastDisplayUpdate st1)
       >=? OledLock.DISPLAY_UPDATE_RATE
    then OledLock.updateDisplay (OledLock.set_lastDisplayUpdate now st1)
    else st1 in
  OledLock.isDoorUnlocked st2 = false /\
  OledLock.unlockTimerActive st2 = false /\
  OledLock.temporaryMessageActive st2 = true /\
  exists evs,
    OledLock.trace st2 = OledLock.trace st ++ evs /\
    OledLock.screens evs = [OledLock.DrawMessage "Timed Out" "Drawer Locked"].
Proof.
  unfold oled_timer_expired, OledLock.isDoorUnlocked, OledLock.checkRFID,
    OledLock.handleUnlockTimer, OledLock.updateDisplay.
  destruct st as [sol ust ? lwr ldu ? ? ? timer ? ? ? tmp sts clk tr].
  intros Hu. exec_in Hu. destruct sol; try discriminate Hu. clear Hu.
  intros He. exec_in He. destruct timer; try discriminate He.
  exec_oled. rewrite He. exec_oled.
  destruct (usub now ldu >=? 250); exec_oled; rewrite ?usub_same;
    exec_oled; change (0 >=? 3000) with false; exec_oled;
    (split; [reflexivity | split; [reflexivity | split; [reflexivity |]]]);
    close_trace_oled.
Qed.

(** X19. The OLED sketch: a pass of [loop] that starts with the door
    unlocked and the unlock timer expired ends with the door locked and
    the timer inactive, whatever card is offered, and leaves the
    message of the re-lock on the screen. *)
Theorem oled_expired_timer_relocks
    (c : option Uid) (s : list ascii) (st : OledLock.State) :
  OledLock.isDoorUnlocked st = true ->
  oled_timer_expired st = true ->
  OledLock.isDoorUnlocked (OledLock.loop c s st) = false /\
  OledLock.unlockTimerActive (OledLock.loop c s st) = false /\
  OledLock.temporaryMessageActive (OledLock.loop c s st) = true /\
  OledLock.screens (OledLock.added st (OledLock.loop c s st))
  = [OledLock.DrawMessage "Timed Out" "Drawer Locked"].
Proof.
  intros Hu He.
  unfold OledLock.loop, OledLock.added. cbv zeta. cbn [OledLock.DEBUG].
  destruct (usub (OledLock.millis st) (OledLock.lastWatchdogReset st)
            >=? OledLock.WATCHDOG_PERIOD / 2).
  - assert (Hu0 : OledLock.isDoorUnlocked
                    (OledLock.set_lastWatchdogReset (OledLock.millis st)
                       (OledLock.emit (OledLock.Hw WdtReset) st)) = true)
      by (destruct st; exact Hu).
    assert (He0 : oled_timer_expired
                    (OledLock.set_lastWatchdogReset (OledLock.millis st)
                       (OledLock.emit (OledLock.Hw WdtReset) st)) = true)
      by (destruct st; exact He).
    destruct (oled_relock_tail c (OledLock.millis st) _ Hu0 He0)
      as (H1 & H2 & H3 & evs & Ht & Hs).
    cbv zeta in H1, H2, H3, Ht.
    repeat split; try assumption.
    rewrite Ht. destruct st. cbn.
    rewrite <- app_assoc, skipn_length_app. exact Hs.
  - destruct (oled_relock_tail c (OledLock.millis st) st Hu He)
      as (H1 & H2 & H3 & evs & Ht & Hs).
    cbv zeta in H1, H2, H3, Ht.
    repeat split; try assumption.
    rewrite Ht, skipn_length_app. exact Hs.
Qed.

Lemma oled_expired_timer_relocks_witness :
  OledLock.isDoorUnlocked
    (OledLock.loop (Some card1) []
       (OledLock.at_time 12000
          (OledLock.checkRFID (Some card1)
             (OledLock.at_time 1000 OledLock.booted)))) = false.
Proof.
  assert (H0 : OledLock.isDoorUnlocked
                 (OledLock.at_time 12000
                    (OledLock.checkRFID (Some card1)
                       (OledLock.at_time 1000 OledLock.booted))) = true)
    by (vm_compute; reflexivity).
  assert (H1 : oled_timer_expired
                 (OledLock.at_time 12000
                    (OledLock.checkRFID (Some card1)
                       (OledLock.at_time 1000 OledLock.booted))) = true)
    by (vm_compute; reflexivity).
  exact (proj1 (oled_expired_timer_relocks (Some card1) []
                  (OledLock.at_time 12000
                     (OledLock.checkRFID (Some card1)
                        (OledLock.at_time 1000 OledLock.booted)))
                  H0 H1)).
Defined.

(** ** The RFID sketch: what an accepted credential does *)

Lemma checkRFID_accepts (u : Uid) (st : State) :
  isDoorUnlocked st = false ->
  authorizedAmong (uidByte u) authorizedUIDs = true ->
  isDoorUnlocked (checkRFID (Some u) st) = true /\
  unlockTimerActive (checkRFID (Some u) st) = true /\
  unlockStartTime (checkRFID (Some u) st) = millis st /\
  millis (checkRFID (Some u) st) = millis st.
Proof.
  unfold checkRFID, isDoorUnlocked. intros Hl ->.
  destruct st as [sol ? ? ? ? ? ? ? session ? ? ? ? ? ? ?].
  exec_in Hl. destruct sol; try discriminate Hl.
  destruct session; repeat split; reflexivity.
Qed.

(** X20. A card of the table scanned while the door is locked opens
    it within the same pass of [loop], if nothing is on the serial
    port: at the end of the pass the solenoid is energised and the
    unlock timer runs from the time of the pass, whatever the button
    level is. *)
Theorem accepted_card_opens_in_pass (u : Uid) (inp : Inputs) (st : State) :
  card inp = Some u ->
  serial inp = [] ->
  isDoorUnlocked st = false ->
  In (candidate u) authorizedUIDs ->
  isDoorUnlocked (loop inp st) = true /\
  unlockTimerActive (loop inp st) = true /\
  unlockStartTime (loop inp st) = millis st.
Proof.
  intros Hcard Hs Hl Hin. apply authorized_iff in Hin.
  assert (Hl0 : isDoorUnlocked (emit WdtReset st) = false)
    by (destruct st; exact Hl).
  destruct (checkRFID_accepts u (emit WdtReset st) Hl0 Hin)
    as (Hu & Ha & Hst & Hm).
  replace (millis (emit WdtReset st)) with (millis st) in Hst, Hm
    by (destruct st; reflexivity).
  assert (Hpass : loopBeforeSleep inp st
                  = handleSessionTimer (checkRFID (Some u) (emit WdtReset st))).
  { unfold loopBeforeSleep. rewrite Hs, Hcard. cbv zeta.
    cbn [checkSerial DEBUG].
    unfold checkManualUnlock at 1. rewrite Hu.
    unfold handleUnlockTimer at 1. rewrite Ha, Hst, Hm, usub_same.
    reflexivity. }
  unfold loop. rewrite Hpass.
  rewrite (proj1 (checkSleep_keeps_lock _ _)), (proj2 (checkSleep_keeps_lock _ _)).
  rewrite (proj1 (handleSessionTimer_keeps_lock _)),
    (proj2 (handleSessionTimer_keeps_lock _)).
  rewrite checkSleep_keeps_start, handleSessionTimer_keeps_start.
  repeat split; assumption.
Qed.

Lemma accepted_card_opens_in_pass_witness :
  isDoorUnlocked (loop (scan card1) (at_time 1000 booted)) = true.
Proof.
  assert (H0 : isDoorUnlocked (at_time 1000 booted) = false)
    by (vm_compute; reflexivity).
  assert (H1 : In (candidate card1) authorizedUIDs) by (simpl; auto).
  exact (proj1 (accepted_card_opens_in_pass card1 (scan card1)
                  (at_time 1000 booted) (eq_refl (Some card1))
                  (eq_refl []) H0 H1)).
Defined.

(** X21. On a locked door the serial command [u] does what an accepted
    card does: apart from the serial output and the 10 ms pause that
    follows every command, the two leave the same state. *)
Theorem serial_unlock_like_card (command : ascii) (u : Uid) (st : State) :
  In command ["u"; "U"]%char ->
  isDoorUnlocked st = false ->
  In (candidate u) authorizedUIDs ->
  quiet (serialCommand command st)
  = set_clock (uadd (clock st) 10) (quiet (checkRFID (Some u) st)).
Proof.
  intros Hc Hl Hin. apply authorized_iff in Hin.
  assert (Hw : is_whitespace command = false).
  { destruct Hc as [<- | [<- | []]]; reflexivity. }
  apply char_in_pair in Hc.
  unfold serialCommand, checkRFID. rewrite Hw, Hin.
  destruct st as [sol ? ? ? ? ? ? ? session ? ? ? ? ? ? ?].
  unfold isDoorUnlocked in *. exec_in Hl.
  destruct sol; try discriminate Hl.
  revert Hc. exec. intros ->. destruct session; reflexivity.
Qed.

Lemma serial_unlock_like_card_witness :
  quiet (serialCommand "u" (at_time 1000 booted))
  = set_clock (uadd (clock (at_time 1000 booted)) 10)
      (quiet (checkRFID (Some card1) (at_time 1000 booted))).
Proof.
  assert (H0 : isDoorUnlocked (at_time 1000 booted) = false)
    by (vm_compute; reflexivity).
  assert (H1 : In (candidate card1) authorizedUIDs) by (simpl; auto).
  assert (H2 : In "u"%char ["u"; "U"]%char) by (simpl; auto).
  exact (serial_unlock_like_card "u" card1 (at_time 1000 booted) H2 H0 H1).
Defined.
